(** * Proximity analysis: distance to water and risk bands

    A shallow embedding of [proximity_analysis.py]: the facility and water
    frames, the distance loop of [calculate_distance_and_categorize_risk],
    its nested [categorize_risk], the report and the map markers of
    [generate_reports], the loading step [load_and_transform_data] and
    the main block, followed by the properties of the written
    specification settled against them.

    Conventions.
    - A float64 is [f64]: not-a-number, the two infinities, or a finite
      value carried by the rational it denotes (every finite binary64 is a
      rational and IEEE comparison of finite values is comparison of those
      rationals).  The program only compares, selects and stores
      distances; it performs no arithmetic on them.
      The two zeros of IEEE, which compare equal, are one value here.
    - The geometry library (shapely, pyproj) is an interface,
      [GeometryLib]; its functions are not part of the program.  So is
      the interpreter's [float] on a string, [Interpreter].
    - What the program writes is the [written] part of the result of
      [main]; what it raises is the other part.
    - Python exceptions are the [Raise] branch of [result].
    - [print] calls are not modelled. *)

From Stdlib Require Import String List ZArith QArith Qabs Bool Arith Lia.
Import ListNotations.
Local Open Scope string_scope.
Local Open Scope list_scope.

(** ** Floating-point values *)

Inductive f64 : Type :=
| NaN
| NegInf
| Fin (q : Q)
| PosInf.

(** IEEE [<=]: false as soon as one side is not a number. *)
Definition fle (x y : f64) : bool :=
  match x, y with
  | NaN, _ | _, NaN => false
  | NegInf, _ => true
  | _, PosInf => true
  | Fin a, Fin b => Qle_bool a b
  | _, _ => false
  end.

(** IEEE [<]. *)
Definition flt (x y : f64) : bool :=
  match x, y with
  | NaN, _ | _, NaN => false
  | PosInf, _ => false
  | _, NegInf => false
  | Fin a, Fin b => negb (Qle_bool b a)
  | _, _ => true
  end.

(** IEEE [==]. *)
Definition feq (x y : f64) : bool := fle x y && fle y x.

Definition is_nan (x : f64) : bool :=
  match x with NaN => true | _ => false end.

Definition of_int (n : Z) : f64 := Fin (inject_Z n).

(** ** Risk classification *)

Module Risk.

(** Lines 73-74. *)
Definition HIGH_RISK_THRESHOLD : Z := 100.
Definition MEDIUM_RISK_THRESHOLD : Z := 500.

(** Lines 76-83, the nested function of
    [calculate_distance_and_categorize_risk]. *)
Definition categorize_risk (distance : f64) : string :=
  if fle distance (of_int HIGH_RISK_THRESHOLD) then "High Risk (<100m)"
  else if fle distance (of_int MEDIUM_RISK_THRESHOLD) then "Medium Risk (101-500m)"
  else "Low Risk (>500m)".

(** The three bands and the literal each one is written as. *)
Inductive band : Type := High | Medium | Low.

Definition band_label (b : band) : string :=
  match b with
  | High => "High Risk (<100m)"
  | Medium => "Medium Risk (101-500m)"
  | Low => "Low Risk (>500m)"
  end.

Definition band_labels : list string := map band_label [High; Medium; Low].

End Risk.
Import Risk.

(** ** Exceptions *)

(** The exceptions that leave a function of the program.  [ReadError] is
    whatever a reader raises on a file that is there but that it cannot
    read. *)
Inductive exn : Type :=
| ReadError
| KeyError (key : string)
| TypeError
| ValueError (msg : string).

Inductive result (A : Type) : Type :=
| Ok (a : A)
| Raise (e : exn).
Arguments Ok {A} a.
Arguments Raise {A} e.

Definition bind {A B : Type} (c : result A) (k : A -> result B) : result B :=
  match c with
  | Ok a => k a
  | Raise e => Raise e
  end.

Notation "x <- c ;; k" := (bind c (fun x => k))
  (at level 61, c at next level, right associativity).

(** ** The pandas operations the program uses *)

Module Pandas.

Inductive value : Type :=
| VStr (s : string)
| VNum (x : f64).

(** What a frame shows where it holds nothing. *)
Definition NA : value := VNum NaN.

Definition column : Type := string * list value.

(** A frame: its index (a range of [df_nrows] positions) and its columns
    in frame order. *)
Record DataFrame : Type := {
  df_nrows : nat;
  df_columns : list column
}.

(** [df[name]]. *)
Fixpoint get_column (name : string) (cols : list column) : result (list value) :=
  match cols with
  | [] => Raise (KeyError name)
  | (n, vs) :: rest => if String.eqb n name then Ok vs else get_column name rest
  end.

(** The column update behind [df[name] = vals]: an existing column keeps
    its place and takes the new values, a new one goes last. *)
Fixpoint assign (name : string) (vals : list value) (cols : list column) : list column :=
  match cols with
  | [] => [(name, vals)]
  | (n, vs) :: rest =>
      if String.eqb n name then (n, vals) :: rest
      else (n, vs) :: assign name vals rest
  end.

(** [df[name] = vals] on a frame of [n] rows. *)
Definition setitem (n : nat) (name : string) (vals : list value) (cols : list column)
  : result (list column) :=
  if Nat.eqb (List.length vals) n then Ok (assign name vals cols)
  else Raise (ValueError "Length of values does not match length of index").

(** [df[[names]]]. *)
Fixpoint select (names : list string) (cols : list column) : result (list column) :=
  match names with
  | [] => Ok []
  | n :: rest =>
      vs <- get_column n cols ;;
      sel <- select rest cols ;;
      Ok ((n, vs) :: sel)
  end.

(** [Series.apply(f)]. *)
Fixpoint apply (f : value -> result value) (vs : list value) : result (list value) :=
  match vs with
  | [] => Ok []
  | v :: rest =>
      r <- f v ;;
      rs <- apply f rest ;;
      Ok (r :: rs)
  end.

Definition fmin (x y : f64) : f64 := if flt y x then y else x.

(** [Series.min()], with its default [skipna=True]: the least of the
    entries that are numbers, not-a-number when there is none. *)
Definition series_min (xs : list f64) : f64 :=
  match filter (fun x => negb (is_nan x)) xs with
  | [] => NaN
  | v :: vs => fold_left fmin vs v
  end.

(** The table [to_csv(..., index=False)] writes: the header line and one
    line per index position.  A cell is carried by its value: a string is
    written as it is, a float as the shortest decimal that reads back as
    the same float (no [float_format] is given), not-a-number as an empty
    field. *)
Record csv : Type := {
  csv_header : list string;
  csv_rows : list (list value)
}.

Definition cell_at (i : nat) (vs : list value) : value := nth i vs NA.

Definition record : Type := list (string * value).

Definition row_at (i : nat) (cols : list column) : record :=
  map (fun c => (fst c, cell_at i (snd c))) cols.

Definition to_csv (df : DataFrame) : csv :=
  {| csv_header := map fst (df_columns df);
     csv_rows := map (fun i => map snd (row_at i (df_columns df)))
                     (seq 0 (df_nrows df)) |}.

End Pandas.
Import Pandas.

(** ** The geometry library *)

Inductive CRS : Type := EPSG (code : N).

(** What the program takes from shapely and pyproj: the geometries, the
    point constructor, the planar distance between two geometries and the
    reprojection of one geometry from a reference system to another. *)
Class GeometryLib : Type := {
  Geometry : Type;
  Point : f64 -> f64 -> Geometry;
  distance : Geometry -> Geometry -> f64;
  transform : CRS -> CRS -> Geometry -> Geometry
}.

(** What the program takes from the interpreter: [float(s)] on a string,
    [None] when it raises. *)
Class Interpreter : Type := {
  float_of_str : string -> option f64
}.

(** [float(v)] on a cell: a number is itself. *)
Definition coordinate_float {py : Interpreter} (v : value) : option f64 :=
  match v with
  | VNum x => Some x
  | VStr s => float_of_str s
  end.

(** What a path holds when the program starts. *)
Inductive file (A : Type) : Type :=
| Missing
| Unreadable
| Content (a : A).
Arguments Missing {A}.
Arguments Unreadable {A}.
Arguments Content {A} a.

Section Program.

Context {geo : GeometryLib} {py : Interpreter}.

(** A geo frame: the attribute columns in frame order, the active
    geometry column, which every geo frame has, and the reference system
    tag.  Its rows are the positions of the geometry column. *)
Record GeoDataFrame : Type := {
  columns : list column;
  geometry : list Geometry;
  crs : option CRS
}.

Definition nrows (gdf : GeoDataFrame) : nat := List.length (geometry gdf).

(** [gpd.GeoDataFrame(df, geometry=..., crs=...)]. *)
Definition new_GeoDataFrame (df : DataFrame) (geoms : list Geometry) (c : CRS)
  : result GeoDataFrame :=
  if Nat.eqb (List.length geoms) (df_nrows df)
  then Ok {| columns := df_columns df; geometry := geoms; crs := Some c |}
  else Raise (ValueError "Length of values does not match length of index").

(** [gdf.to_crs(target)]: a frame without a reference system is refused,
    otherwise every geometry is reprojected in place of the old one. *)
Definition to_crs (target : CRS) (gdf : GeoDataFrame) : result GeoDataFrame :=
  match crs gdf with
  | None => Raise (ValueError "Cannot transform naive geometries.  Please set a crs on the object first.")
  | Some source =>
      Ok {| columns := columns gdf;
            geometry := map (transform source target) (geometry gdf);
            crs := Some target |}
  end.

(** [gdf_water.distance(other)]: one distance per water feature. *)
Definition GeoSeries_distance (gdf_water : GeoDataFrame) (other : Geometry) : list f64 :=
  map (fun w => distance w other) (geometry gdf_water).

(** [gdf.iterrows()]: the rows in index order, each with its geometry. *)
Definition iterrows (gdf : GeoDataFrame) : list (Geometry * record) :=
  map (fun ig => (snd ig, row_at (fst ig) (columns gdf)))
      (combine (seq 0 (nrows gdf)) (geometry gdf)).

(** ** [load_and_transform_data] *)

Definition TARGET_CRS : CRS := EPSG 32610.

Record inputs : Type := {
  FACILITY_FILE : file DataFrame;
  WATER_FILE : file GeoDataFrame
}.

(** A coordinate as [Point] takes it: a number as it is, anything else
    through [float]. *)
Definition coordinate (v : value) : result f64 :=
  match coordinate_float v with
  | Some x => Ok x
  | None => Raise (ValueError "could not convert string to float")
  end.

(** [[Point(xy) for xy in zip(lons, lats)]]. *)
Fixpoint points (lons lats : list value) : result (list Geometry) :=
  match lons, lats with
  | lon :: lons', lat :: lats' =>
      x <- coordinate lon ;;
      y <- coordinate lat ;;
      ps <- points lons' lats' ;;
      Ok (Point x y :: ps)
  | _, _ => Ok []
  end.

(** Lines 14-51.  [None] is the pair [(None, None)] the function returns
    after it has caught a reader's exception. *)
Definition load_and_transform_data (env : inputs)
  : result (option (GeoDataFrame * GeoDataFrame)) :=
  match FACILITY_FILE env with
  | Missing => Ok None
  | Unreadable => Raise ReadError
  | Content df_facilities =>
      lons <- get_column "LONGITUDE" (df_columns df_facilities) ;;
      lats <- get_column "LATITUDE" (df_columns df_facilities) ;;
      geoms <- points lons lats ;;
      gdf_facilities <- new_GeoDataFrame df_facilities geoms (EPSG 4326) ;;
      match WATER_FILE env with
      | Missing | Unreadable => Ok None
      | Content gdf_water =>
          gdf_facilities_proj <- to_crs TARGET_CRS gdf_facilities ;;
          gdf_water_proj <- to_crs TARGET_CRS gdf_water ;;
          Ok (Some (gdf_facilities_proj, gdf_water_proj))
      end
  end.

(** ** [calculate_distance_and_categorize_risk] *)

(** Line 64, the body of the loop. *)
Definition min_dist (gdf_water_proj : GeoDataFrame) (facility : Geometry) : f64 :=
  series_min (GeoSeries_distance gdf_water_proj facility).

(** Lines 58-65: the list [distances_m] once the loop has gone through
    the facilities. *)
Definition distances_loop (gdf_water_proj : GeoDataFrame) (facilities : list Geometry)
  : list f64 :=
  fold_left (fun distances_m facility => distances_m ++ [min_dist gdf_water_proj facility])
            facilities [].

(** [categorize_risk] as [apply] calls it on the entries of a column. *)
Definition categorize_value (v : value) : result value :=
  match v with
  | VNum d => Ok (VStr (categorize_risk d))
  | VStr _ => Raise TypeError
  end.

(** Lines 68-88: what the function does with [distances_m].  The frame it
    returns is the frame it was given, updated in place. *)
Definition store_results (gdf_facilities_proj : GeoDataFrame) (distances_m : list f64)
  : result GeoDataFrame :=
  cols1 <- setitem (nrows gdf_facilities_proj) "Distance_to_Water_m"
                   (map VNum distances_m) (columns gdf_facilities_proj) ;;
  dist_col <- get_column "Distance_to_Water_m" cols1 ;;
  risk <- apply categorize_value dist_col ;;
  cols2 <- setitem (nrows gdf_facilities_proj) "Risk_Category" risk cols1 ;;
  Ok {| columns := cols2;
        geometry := geometry gdf_facilities_proj;
        crs := crs gdf_facilities_proj |}.

(** Lines 53-88. *)
Definition calculate_distance_and_categorize_risk
  (gdf_facilities_proj gdf_water_proj : GeoDataFrame) : result GeoDataFrame :=
  store_results gdf_facilities_proj
    (distances_loop gdf_water_proj (geometry gdf_facilities_proj)).

(** ** [generate_reports], the CSV report (lines 93-108) *)

Definition REPORT_COLUMNS : list string :=
  ["FACILITY_NAME"; "COUNTY"; "LATITUDE"; "LONGITUDE";
   "Distance_to_Water_m"; "Risk_Category"].

Definition generate_reports (gdf_classified : GeoDataFrame) : result csv :=
  gdf_report <- to_crs (EPSG 4326) gdf_classified ;;
  sel <- select REPORT_COLUMNS (columns gdf_report) ;;
  let df_report := {| df_nrows := nrows gdf_report; df_columns := sel |} in
  Ok (to_csv df_report).

End Program.

(** ** The statements of the written specification *)

Section Statements.

Context {geo : GeometryLib}.

(** The brute-force minimum of the specification: a value that some
    feature of the collection is at, and that no feature is nearer than.
    Features without a distance (a missing geometry) do not take part. *)
Definition is_brute_force_min (gdf_water : GeoDataFrame) (facility : Geometry) (m : f64)
  : Prop :=
  (exists w, In w (geometry gdf_water) /\ feq (distance w facility) m = true)
  /\ (forall w, In w (geometry gdf_water) ->
                is_nan (distance w facility) = false ->
                fle m (distance w facility) = true).

(** The column [apply(categorize_risk)] makes of a list of distances. *)
Definition labels (ds : list f64) : list value :=
  map (fun d => VStr (categorize_risk d)) ds.

(** The classifier refuses every negative value: none gets a band. *)
Definition rejects_negative_distances : Prop :=
  forall d, flt d (of_int 0) = true -> ~ In (categorize_risk d) band_labels.

(** No row of the result carries one of the three bands. *)
Definition marked_unclassifiable (res : result GeoDataFrame) : Prop :=
  exists out risk,
    res = Ok out
    /\ get_column "Risk_Category" (columns out) = Ok risk
    /\ forall r, In r risk -> forall b, r <> VStr (band_label b).

(** A number with at most two decimals: a whole number of hundredths. *)
Definition two_decimals (x : f64) : bool :=
  match x with
  | Fin q => Z.eqb ((Qnum q * 100) mod Zpos (Qden q)) 0
  | _ => false
  end.

(** Every distance written to the report is a number of at most two
    decimals (the fifth cell of a row is its distance). *)
Definition distances_written_with_two_decimals (report : csv) : Prop :=
  forall row, In row (csv_rows report) ->
    exists x, nth 4 row NA = VNum x /\ two_decimals x = true.

(** The two derived columns are not yet in the frame. *)
Definition derived_absent (gdf : GeoDataFrame) : Prop :=
  ~ In "Distance_to_Water_m" (map fst (columns gdf))
  /\ ~ In "Risk_Category" (map fst (columns gdf)).

Definition derived (name : string) : bool :=
  String.eqb name "Distance_to_Water_m" || String.eqb name "Risk_Category".

(** A record without its derived fields. *)
Definition original_fields (r : record) : record :=
  filter (fun kv => negb (derived (fst kv))) r.

Definition field (name : string) (r : record) : option value :=
  option_map snd (find (fun kv => String.eqb (fst kv) name) r).

(** What a record shows under a name. *)
Definition cell (name : string) (r : record) : value :=
  match field name r with
  | Some v => v
  | None => NA
  end.

End Statements.

(** ** The rest of the program *)

Module Folium.

(** [df.iterrows()] on a plain frame: the rows in index order. *)
Definition df_iterrows (df : DataFrame) : list record :=
  map (fun i => row_at i (df_columns df)) (seq 0 (df_nrows df)).

(** [row[name]]. *)
Definition row_get (name : string) (row : record) : result value :=
  match field name row with
  | Some v => Ok v
  | None => Raise (KeyError name)
  end.

(** Line 120. *)
Definition risk_colors : list (string * string) :=
  [("High Risk (<100m)", "red");
   ("Medium Risk (101-500m)", "orange");
   ("Low Risk (>500m)", "blue")].

(** Line 124, [risk_colors.get(key, 'gray')]. *)
Definition risk_color (key : value) : string :=
  match key with
  | VStr s =>
      match find (fun kv => String.eqb (fst kv) s) risk_colors with
      | Some kv => snd kv
      | None => "gray"
      end
  | VNum _ => "gray"
  end.

(** The popup of lines 126-131 by its four entries, in the order the
    text names them; the distance entry is the one shown with two
    decimals.  The text itself is not built. *)
Record Popup : Type := {
  popup_facility : value;
  popup_county : value;
  popup_distance : f64;
  popup_risk : value
}.

(** The marker of lines 133-141: where it is put, as the two floats the
    constructor keeps, its radius, its two colours and its popup.  The
    fill switch and opacity, two constants, are left out. *)
Record CircleMarker : Type := {
  location : f64 * f64;
  radius : Z;
  color : string;
  fill_color : string;
  popup : Popup
}.

(** The format [:.2f] takes a number only. *)
Definition fixed_point_operand (v : value) : result f64 :=
  match v with
  | VNum x => Ok x
  | VStr _ => Raise (ValueError "Unknown format code 'f' for object of type 'str'")
  end.

Section Markers.

Context {py : Interpreter}.

(** What the marker's constructor does with each of the two entries of
    [location], the first one first: the entry must convert to a float,
    and the float must be a number. *)
Definition validate_coordinate (v : value) : result f64 :=
  match coordinate_float v with
  | None =>
      Raise (ValueError "Location should consist of two numerical values")
  | Some x =>
      if is_nan x then Raise (ValueError "Location values cannot contain NaNs.")
      else Ok x
  end.

(** The body of the loop of lines 123-141. *)
Definition marker_of_row (row : record) : result CircleMarker :=
  risk <- row_get "Risk_Category" row ;;
  let color := risk_color risk in
  name <- row_get "FACILITY_NAME" row ;;
  county <- row_get "COUNTY" row ;;
  dist <- row_get "Distance_to_Water_m" row ;;
  shown <- fixed_point_operand dist ;;
  level <- row_get "Risk_Category" row ;;
  lat <- row_get "LATITUDE" row ;;
  lon <- row_get "LONGITUDE" row ;;
  y <- validate_coordinate lat ;;
  x <- validate_coordinate lon ;;
  Ok {| location := (y, x);
        radius := 5;
        color := color;
        fill_color := color;
        popup := {| popup_facility := name;
                    popup_county := county;
                    popup_distance := shown;
                    popup_risk := level |} |}.

Fixpoint markers (rows : list record) : result (list CircleMarker) :=
  match rows with
  | [] => Ok []
  | row :: rest =>
      m <- marker_of_row row ;;
      ms <- markers rest ;;
      Ok (m :: ms)
  end.

End Markers.

End Folium.
Import Folium.

(** What a run leaves behind: the report, once it is written, and the
    map, once it is saved. *)
Record written : Type := {
  report_file : option csv;
  map_file : option (list CircleMarker)
}.

Definition nothing_written : written :=
  {| report_file := None; map_file := None |}.

Section Further.

Context {geo : GeometryLib} {py : Interpreter}.

(** Lines 97-106: the frame [df_report]. *)
Definition report_frame (gdf_classified : GeoDataFrame) : result DataFrame :=
  gdf_report <- to_crs (EPSG 4326) gdf_classified ;;
  sel <- select REPORT_COLUMNS (columns gdf_report) ;;
  Ok {| df_nrows := nrows gdf_report; df_columns := sel |}.

(** Lines 113-143: the markers put on the map, in the order they are
    added. *)
Definition generate_reports_map (gdf_classified : GeoDataFrame)
  : result (list CircleMarker) :=
  df_report <- report_frame gdf_classified ;;
  markers (df_iterrows df_report).

(** Lines 20-28: the facility layer made of the table. *)
Definition facility_layer (df_facilities : DataFrame) : result GeoDataFrame :=
  lons <- get_column "LONGITUDE" (df_columns df_facilities) ;;
  lats <- get_column "LATITUDE" (df_columns df_facilities) ;;
  geoms <- points lons lats ;;
  new_GeoDataFrame df_facilities geoms (EPSG 4326).

(** Lines 90-144 as a whole: the report is written first, then the
    markers are made and the map is saved; an exception of the second
    half leaves the report behind. *)
Definition generate_reports_all (gdf_classified : GeoDataFrame)
  : written * result unit :=
  match generate_reports gdf_classified with
  | Raise e => (nothing_written, Raise e)
  | Ok report =>
      match generate_reports_map gdf_classified with
      | Raise e => ({| report_file := Some report; map_file := None |}, Raise e)
      | Ok ms => ({| report_file := Some report; map_file := Some ms |}, Ok tt)
      end
  end.

(** The main block (lines 147-160): what it has written when it ends,
    and how it ends. *)
Definition main (env : inputs) : written * result unit :=
  match load_and_transform_data env with
  | Raise e => (nothing_written, Raise e)
  | Ok None => (nothing_written, Ok tt)
  | Ok (Some (gdf_facilities_proj, gdf_water_proj)) =>
      match calculate_distance_and_categorize_risk gdf_facilities_proj gdf_water_proj with
      | Raise e => (nothing_written, Raise e)
      | Ok gdf_classified => generate_reports_all gdf_classified
      end
  end.

(** The marker the loop makes for a facility placed at [(lat, lon)],
    named [name] in [county], at distance [d]. *)
Definition facility_marker (lat lon : f64) (name county : value) (d : f64)
  : CircleMarker :=
  {| location := (lat, lon);
     radius := 5;
     color := risk_color (VStr (categorize_risk d));
     fill_color := risk_color (VStr (categorize_risk d));
     popup := {| popup_facility := name;
                 popup_county := county;
                 popup_distance := d;
                 popup_risk := VStr (categorize_risk d) |} |}.

(** A water layer without a usable reference system always makes the
    loading step raise, once the facility layer is built: the layer was
    read without a tag, or the reader failed on it. *)
Definition unusable_crs_is_rejected : Prop :=
  forall env df gdf,
    FACILITY_FILE env = Content df ->
    facility_layer df = Ok gdf ->
    (WATER_FILE env = Unreadable
     \/ exists gdf_water, WATER_FILE env = Content gdf_water /\ crs gdf_water = None) ->
    exists e, load_and_transform_data env = Raise e.

(** With a water layer that has a feature, every recorded distance is a
    number that is at least 0. *)
Definition nonempty_water_gives_nonnegative : Prop :=
  forall gdf_facilities_proj gdf_water_proj,
    geometry gdf_water_proj <> [] ->
    Forall (fun d => fle (Fin 0) d = true)
           (distances_loop gdf_water_proj (geometry gdf_facilities_proj)).

(** Every attribute column has one entry per row. *)
Definition well_formed (gdf : GeoDataFrame) : Prop :=
  Forall (fun c => List.length (snd c) = nrows gdf) (columns gdf).

(** The name, when the frame does not have it yet. *)
Definition if_absent (name : string) (names : list string) : list string :=
  if existsb (String.eqb name) names then [] else [name].

(** The distance of line 64 for a facility read at [(lon, lat)] and a
    water layer tagged [source], both taken to the target system. *)
Definition projected_distance (source : CRS) (gdf_water : GeoDataFrame) (lon lat : f64)
  : f64 :=
  series_min
    (map (fun w => distance (transform source TARGET_CRS w)
                            (transform (EPSG 4326) TARGET_CRS (Point lon lat)))
         (geometry gdf_water)).

End Further.

(** The bands from the nearest to the farthest. *)
Definition band_rank (b : band) : nat :=
  match b with
  | High => 0
  | Medium => 1
  | Low => 2
  end.

Definition band_color (b : band) : string :=
  match b with
  | High => "red"
  | Medium => "orange"
  | Low => "blue"
  end.

(** ** A small geometry to run the program on

    Facilities and features are positions on a line; [None] is a missing
    geometry, to which no distance is defined. *)

Module Line.

Definition position (x : f64) : option Q :=
  match x with
  | Fin q => Some q
  | _ => None
  end.

Definition gap (a b : option Q) : f64 :=
  match a, b with
  | Some u, Some v => Fin (Qabs (u - v))
  | _, _ => NaN
  end.

Definition geometry_lib : GeometryLib :=
  {| Geometry := option Q;
     Point := fun x _ => position x;
     distance := gap;
     transform := fun _ _ g => g |}.

(** An interpreter for which no string of the tables below is a float. *)
Definition interpreter : Interpreter :=
  {| float_of_str := fun _ => None |}.

Definition GDF : Type := @GeoDataFrame geometry_lib.

Definition frame (cols : list column) (geoms : list (option Q)) (c : option CRS) : GDF :=
  @Build_GeoDataFrame geometry_lib cols geoms c.

(** Three facilities at 45, 300 and 1000, projected. *)
Definition facilities : GDF :=
  frame [("FACILITY_NAME", [VStr "Alpha"; VStr "Bravo"; VStr "Charlie"]);
         ("COUNTY", [VStr "Alameda"; VStr "Marin"; VStr "Napa"]);
         ("LATITUDE", [VNum (Fin 37); VNum (Fin 38); VNum (Fin (77 # 2))]);
         ("LONGITUDE", [VNum (Fin (-122)); VNum (Fin (-123)); VNum (Fin (-245 # 2))]);
         ("PERMIT", [VStr "A-1"; VStr "B-2"; VStr "C-3"])]
        [Some 45; Some 300; Some 1000] (Some TARGET_CRS).

(** Two water features, at 0 and at 2000. *)
Definition water : GDF :=
  frame [] [Some 0; Some 2000] (Some TARGET_CRS).

(** A water layer that was read but holds no feature. *)
Definition no_water : GDF :=
  frame [] [] (Some TARGET_CRS).

(** A water layer without a reference system. *)
Definition untagged_water : GDF :=
  frame [] [Some 0] None.

(** One facility an eighth of a metre from the only feature. *)
Definition near_facility : GDF :=
  frame [("FACILITY_NAME", [VStr "Delta"]);
         ("COUNTY", [VStr "Solano"]);
         ("LATITUDE", [VNum (Fin 38)]);
         ("LONGITUDE", [VNum (Fin (-122))])]
        [Some (1 # 8)] (Some TARGET_CRS).

Definition shore : GDF :=
  frame [] [Some 0] (Some TARGET_CRS).

Definition facility_table : DataFrame :=
  {| df_nrows := 1;
     df_columns := [("FACILITY_NAME", [VStr "Delta"]);
                    ("COUNTY", [VStr "Solano"]);
                    ("LATITUDE", [VNum (Fin 38)]);
                    ("LONGITUDE", [VNum (Fin (-122))])] |}.

(** The facility table is there; the water layer has no reference
    system. *)
Definition untagged_inputs : @inputs geometry_lib :=
  {| FACILITY_FILE := Content facility_table;
     WATER_FILE := Content untagged_water |}.

End Line.

Module LineData.

(** The water features of [Line.water] in the other order. *)
Definition water_reversed : Line.GDF :=
  Line.frame [] [Some 2000; Some 0] (Some TARGET_CRS).

(** The facility table is there and the water layer is tagged. *)
Definition tagged_inputs : @inputs Line.geometry_lib :=
  {| FACILITY_FILE := Content Line.facility_table;
     WATER_FILE := Content Line.shore |}.

(** A facility table without its longitude column. *)
Definition table_without_longitude : DataFrame :=
  {| df_nrows := 1;
     df_columns := [("FACILITY_NAME", [VStr "Delta"]);
                    ("COUNTY", [VStr "Solano"]);
                    ("LATITUDE", [VNum (Fin 38)])] |}.

Definition inputs_without_longitude : @inputs Line.geometry_lib :=
  {| FACILITY_FILE := Content table_without_longitude;
     WATER_FILE := Content Line.shore |}.

(** The facility table is there; the reader fails on the water file. *)
Definition unreadable_water_inputs : @inputs Line.geometry_lib :=
  {| FACILITY_FILE := Content Line.facility_table;
     WATER_FILE := Unreadable |}.

(** A water layer whose only feature has no geometry. *)
Definition water_without_geometry : Line.GDF :=
  Line.frame [] [None] (Some TARGET_CRS).

(** A facility table whose latitude is not a number. *)
Definition table_without_latitude : DataFrame :=
  {| df_nrows := 1;
     df_columns := [("FACILITY_NAME", [VStr "Delta"]);
                    ("COUNTY", [VStr "Solano"]);
                    ("LATITUDE", [VNum NaN]);
                    ("LONGITUDE", [VNum (Fin (-122))])] |}.

Definition inputs_without_latitude : @inputs Line.geometry_lib :=
  {| FACILITY_FILE := Content table_without_latitude;
     WATER_FILE := Content Line.shore |}.

End LineData.


(** * Properties *)

(** ** Order on floats *)

Lemma fle_number_l x y : fle x y = true -> is_nan x = false.
Proof. destruct x; simpl; congruence. Qed.

Lemma fle_number_r x y : fle x y = true -> is_nan y = false.
Proof. destruct x, y; simpl; congruence. Qed.

Lemma fle_refl x : is_nan x = false -> fle x x = true.
Proof.
  destruct x; simpl; try congruence. intros _.
  apply Qle_bool_iff, Qle_refl.
Qed.

Lemma fle_trans x y z : fle x y = true -> fle y z = true -> fle x z = true.
Proof.
  destruct x, y, z; simpl; try congruence.
  rewrite !Qle_bool_iff. apply Qle_trans.
Qed.

Lemma flt_false_fle x y :
  is_nan x = false -> is_nan y = false -> flt y x = false -> fle x y = true.
Proof.
  destruct x, y; simpl; try congruence.
  intros _ _ H. apply negb_false_iff in H. exact H.
Qed.

Lemma flt_true_fle x y : flt x y = true -> fle x y = true.
Proof.
  destruct x, y; simpl; try congruence.
  intros H. apply negb_true_iff in H.
  apply Qle_bool_iff. apply Qlt_le_weak, Qnot_le_lt.
  intros C. apply Qle_bool_iff in C. congruence.
Qed.

Lemma flt_fle_exclusive x y : flt x y = true -> fle y x = false.
Proof.
  destruct x, y; simpl; try congruence.
  intros H. apply negb_true_iff in H. exact H.
Qed.

Lemma flt_negb_fle x y :
  is_nan x = false -> is_nan y = false -> flt x y = negb (fle y x).
Proof. destruct x, y; simpl; congruence. Qed.

Lemma feq_true x y : feq x y = true <-> fle x y = true /\ fle y x = true.
Proof. unfold feq. apply andb_true_iff. Qed.

(** ** [Series.min] *)

Lemma fmin_cases x y : fmin x y = x \/ fmin x y = y.
Proof. unfold fmin. destruct (flt y x); auto. Qed.

Lemma fmin_le_l x y :
  is_nan x = false -> is_nan y = false -> fle (fmin x y) x = true.
Proof.
  intros Hx Hy. unfold fmin. destruct (flt y x) eqn:E.
  - now apply flt_true_fle.
  - now apply fle_refl.
Qed.

Lemma fmin_le_r x y :
  is_nan x = false -> is_nan y = false -> fle (fmin x y) y = true.
Proof.
  intros Hx Hy. unfold fmin. destruct (flt y x) eqn:E.
  - now apply fle_refl.
  - now apply flt_false_fle.
Qed.

Lemma fmin_number x y :
  is_nan x = false -> is_nan y = false -> is_nan (fmin x y) = false.
Proof. intros Hx Hy. destruct (fmin_cases x y) as [-> | ->]; assumption. Qed.

Lemma fold_fmin_spec vs : forall v,
  is_nan v = false ->
  (forall x, In x vs -> is_nan x = false) ->
  is_nan (fold_left fmin vs v) = false
  /\ In (fold_left fmin vs v) (v :: vs)
  /\ (forall x, In x (v :: vs) -> fle (fold_left fmin vs v) x = true).
Proof.
  induction vs as [| y vs IH]; intros v Hv Hvs; simpl.
  - split; [assumption |]. split; [now left |].
    intros x [<- | []]. now apply fle_refl.
  - assert (Hy : is_nan y = false) by (apply Hvs; now left).
    destruct (IH (fmin v y)) as (Hn & Hin & Hle).
    + now apply fmin_number.
    + intros x Hx. apply Hvs. now right.
    + split; [assumption |]. split.
      * destruct Hin as [Hin | Hin]; [| now right; right].
        rewrite <- Hin. destruct (fmin_cases v y) as [-> | ->]; [now left | now right; left].
      * intros x [<- | [<- | Hx]].
        -- eapply fle_trans; [apply Hle; now left | now apply fmin_le_l].
        -- eapply fle_trans; [apply Hle; now left | now apply fmin_le_r].
        -- apply Hle. now right.
Qed.

Lemma series_min_all_nan xs :
  (forall x, In x xs -> is_nan x = true) -> series_min xs = NaN.
Proof.
  intros H. unfold series_min.
  destruct (filter (fun x => negb (is_nan x)) xs) as [| v vs] eqn:E; [reflexivity |].
  assert (Hv : In v (filter (fun x => negb (is_nan x)) xs)) by (rewrite E; now left).
  apply filter_In in Hv. destruct Hv as [Hin Hv].
  rewrite (H v Hin) in Hv. discriminate.
Qed.


Lemma series_min_number xs :
  (exists x, In x xs /\ is_nan x = false) -> is_nan (series_min xs) = false.
Proof.
  intros (x & Hin & Hx). unfold series_min.
  destruct (filter (fun x => negb (is_nan x)) xs) as [| v vs] eqn:E.
  - assert (H : In x (filter (fun x => negb (is_nan x)) xs))
      by (apply filter_In; split; [assumption | now rewrite Hx]).
    rewrite E in H. destruct H.
  - apply fold_fmin_spec.
    + assert (H : In v (filter (fun x => negb (is_nan x)) xs)) by (rewrite E; now left).
      apply filter_In in H. now apply negb_true_iff.
    + intros y Hy.
      assert (H : In y (filter (fun x => negb (is_nan x)) xs)) by (rewrite E; now right).
      apply filter_In in H. now apply negb_true_iff.
Qed.

Lemma series_min_spec xs :
  is_nan (series_min xs) = false ->
  In (series_min xs) xs
  /\ (forall x, In x xs -> is_nan x = false -> fle (series_min xs) x = true).
Proof.
  unfold series_min.
  destruct (filter (fun x => negb (is_nan x)) xs) as [| v vs] eqn:E; [discriminate |].
  intros _.
  assert (Hmem : forall y, In y (v :: vs) <-> In y xs /\ is_nan y = false).
  { intros y. rewrite <- E, filter_In, negb_true_iff. reflexivity. }
  destruct (fold_fmin_spec vs v) as (_ & Hin & Hle).
  - apply Hmem. now left.
  - intros y Hy. apply Hmem. now right.
  - split.
    + now apply Hmem in Hin.
    + intros x Hx Hn. apply Hle. apply Hmem. now split.
Qed.

(** ** Columns *)

Lemma get_column_assign_same name vals cols :
  get_column name (assign name vals cols) = Ok vals.
Proof.
  induction cols as [| [n vs] rest IH]; simpl.
  - now rewrite String.eqb_refl.
  - destruct (String.eqb n name) eqn:E; simpl; rewrite E; [reflexivity | exact IH].
Qed.

Lemma get_column_assign_other name other vals cols :
  other <> name ->
  get_column other (assign name vals cols) = get_column other cols.
Proof.
  intros Hne. induction cols as [| [n vs] rest IH]; simpl.
  - destruct (String.eqb name other) eqn:E; [| reflexivity].
    apply String.eqb_eq in E. congruence.
  - destruct (String.eqb n name) eqn:E; simpl.
    + apply String.eqb_eq in E. subst n.
      destruct (String.eqb name other) eqn:E'; [| reflexivity].
      apply String.eqb_eq in E'. congruence.
    + now rewrite IH.
Qed.

Lemma assign_absent name vals cols :
  ~ In name (map fst cols) -> assign name vals cols = cols ++ [(name, vals)].
Proof.
  induction cols as [| [n vs] rest IH]; simpl; intros H; [reflexivity |].
  destruct (String.eqb n name) eqn:E.
  - apply String.eqb_eq in E. tauto.
  - rewrite IH; tauto.
Qed.


Lemma assign_derived_filter name vals cols :
  derived name = true ->
  filter (fun c => negb (derived (fst c))) (assign name vals cols)
  = filter (fun c => negb (derived (fst c))) cols.
Proof.
  intros Hd. induction cols as [| [n vs] rest IH]; simpl.
  - now rewrite Hd.
  - destruct (String.eqb n name) eqn:E; simpl.
    + apply String.eqb_eq in E. subst n. now rewrite Hd.
    + now rewrite IH.
Qed.

Lemma assign_names_kept name vals cols n :
  In n (map fst cols) -> In n (map fst (assign name vals cols)).
Proof.
  induction cols as [| [k vs] rest IH]; simpl; [tauto |].
  destruct (String.eqb k name); simpl; tauto.
Qed.

Lemma apply_categorize_numbers ds :
  apply categorize_value (map VNum ds)
  = Ok (map (fun d => VStr (categorize_risk d)) ds).
Proof.
  induction ds as [| d ds IH]; simpl; [reflexivity |].
  rewrite IH. reflexivity.
Qed.



(** ** Rows *)

Lemma combine_fst {A B : Type} (l1 : list A) : forall (l2 : list B),
  List.length l1 = List.length l2 -> map fst (combine l1 l2) = l1.
Proof.
  induction l1 as [| a l1 IH]; intros [| b l2] H; simpl in *; try congruence.
  f_equal. apply IH. now injection H.
Qed.

Lemma map_indexed_ext {A B : Type} (F G : nat * A -> B) (l : list A) : forall s : nat,
  (forall i a, nth_error l i = Some a -> F ((s + i)%nat, a) = G ((s + i)%nat, a)) ->
  map F (combine (seq s (List.length l)) l) = map G (combine (seq s (List.length l)) l).
Proof.
  induction l as [| a l IH]; intros s H; simpl; [reflexivity |].
  f_equal.
  - specialize (H 0%nat a eq_refl). now rewrite Nat.add_0_r in H.
  - apply IH. intros i b Hi. specialize (H (S i) b Hi).
    now rewrite Nat.add_succ_r in H.
Qed.

Lemma cell_at_map {A : Type} (h : A -> value) (l : list A) i a :
  nth_error l i = Some a -> cell_at i (map h l) = h a.
Proof.
  intros H. unfold cell_at. apply nth_error_nth.
  now apply map_nth_error.
Qed.

Lemma original_fields_row_at i cols :
  original_fields (row_at i cols)
  = row_at i (filter (fun c => negb (derived (fst c))) cols).
Proof.
  unfold original_fields, row_at.
  induction cols as [| [n vs] rest IH]; simpl; [reflexivity |].
  destruct (derived n); simpl; now rewrite IH.
Qed.

Lemma field_row_at name i cols vs :
  get_column name cols = Ok vs -> field name (row_at i cols) = Some (cell_at i vs).
Proof.
  unfold field, row_at.
  induction cols as [| [n v] rest IH]; simpl; [discriminate |].
  destruct (String.eqb n name); [intros [= ->]; reflexivity | exact IH].
Qed.

Lemma select_row names cols i : forall sel,
  select names cols = Ok sel ->
  map snd (row_at i sel) = map (fun name => cell name (row_at i cols)) names.
Proof.
  induction names as [| n names IH]; simpl; intros sel H.
  - injection H as <-. reflexivity.
  - destruct (get_column n cols) as [vs |] eqn:E; simpl in H; [| discriminate].
    destruct (select names cols) as [sel' |]; simpl in H; [| discriminate].
    injection H as <-. simpl. unfold cell at 1.
    rewrite (field_row_at _ _ _ _ E). f_equal. now apply IH.
Qed.

Section Engine.

Context {geo : GeometryLib}.

(** ** The loop *)

Lemma distances_fold gdf_water_proj facilities : forall acc,
  fold_left (fun distances_m facility => distances_m ++ [min_dist gdf_water_proj facility])
            facilities acc
  = acc ++ map (min_dist gdf_water_proj) facilities.
Proof.
  induction facilities as [| f fs IH]; intros acc; simpl.
  - now rewrite app_nil_r.
  - rewrite IH, <- app_assoc. reflexivity.
Qed.

Lemma distances_loop_map gdf_water_proj facilities :
  distances_loop gdf_water_proj facilities = map (min_dist gdf_water_proj) facilities.
Proof. unfold distances_loop. now rewrite distances_fold. Qed.

Lemma distances_loop_length gdf_water_proj facilities :
  List.length (distances_loop gdf_water_proj facilities) = List.length facilities.
Proof. now rewrite distances_loop_map, length_map. Qed.



(** ** The column assignments *)

Lemma store_results_ok gdf ds :
  List.length ds = nrows gdf ->
  store_results gdf ds
  = Ok {| columns := assign "Risk_Category" (labels ds)
                       (assign "Distance_to_Water_m" (map VNum ds) (columns gdf));
          geometry := geometry gdf;
          crs := crs gdf |}.
Proof.
  intros Hlen. unfold store_results, setitem.
  rewrite length_map, Hlen, Nat.eqb_refl. cbn [bind].
  rewrite get_column_assign_same. cbn [bind].
  rewrite apply_categorize_numbers. cbn [bind].
  unfold labels. rewrite length_map, Hlen, Nat.eqb_refl. reflexivity.
Qed.

Lemma calculate_ok gdf gdf_water_proj :
  calculate_distance_and_categorize_risk gdf gdf_water_proj
  = Ok {| columns :=
            assign "Risk_Category"
              (labels (map (min_dist gdf_water_proj) (geometry gdf)))
              (assign "Distance_to_Water_m"
                 (map VNum (map (min_dist gdf_water_proj) (geometry gdf)))
                 (columns gdf));
          geometry := geometry gdf;
          crs := crs gdf |}.
Proof.
  unfold calculate_distance_and_categorize_risk.
  rewrite store_results_ok by apply distances_loop_length.
  now rewrite distances_loop_map.
Qed.



End Engine.

(** ** The classifier *)

Lemma band_label_injective b1 b2 : band_label b1 = band_label b2 -> b1 = b2.
Proof. destruct b1, b2; simpl; intros H; try reflexivity; discriminate H. Qed.

Lemma categorize_risk_band d : exists b, categorize_risk d = band_label b.
Proof.
  unfold categorize_risk.
  destruct (fle d (of_int HIGH_RISK_THRESHOLD)); [now exists High |].
  destruct (fle d (of_int MEDIUM_RISK_THRESHOLD)); [now exists Medium | now exists Low].
Qed.

Lemma categorize_risk_in_labels d : In (categorize_risk d) band_labels.
Proof.
  destruct (categorize_risk_band d) as [b ->].
  destruct b; simpl; auto.
Qed.

(** C2: a distance that is not negative falls in exactly one band, High
    when it is at most 100, Medium when it is above 100 and at most 500,
    Low when it is above 500; 100 and 500 belong to the lower band. *)
Theorem categorize_risk_partitions (d : f64) :
  fle (Fin 0) d = true ->
  (exists! b, categorize_risk d = band_label b)
  /\ (categorize_risk d = band_label High <-> fle d (Fin 100) = true)
  /\ (categorize_risk d = band_label Medium <->
      flt (Fin 100) d = true /\ fle d (Fin 500) = true)
  /\ (categorize_risk d = band_label Low <-> flt (Fin 500) d = true).
Proof.
  intros Hpos.
  assert (Hd : is_nan d = false) by (eapply fle_number_r; eassumption).
  assert (H100 : flt (Fin 100) d = negb (fle d (Fin 100)))
    by (apply flt_negb_fle; [reflexivity | assumption]).
  assert (H500 : flt (Fin 500) d = negb (fle d (Fin 500)))
    by (apply flt_negb_fle; [reflexivity | assumption]).
  assert (Hmono : fle d (Fin 100) = true -> fle d (Fin 500) = true)
    by (intros H; eapply fle_trans; [exact H | reflexivity]).
  split.
  - destruct (categorize_risk_band d) as [b Hb].
    exists b. split; [exact Hb |].
    intros b' Hb'. apply band_label_injective. congruence.
  - rewrite H100, H500. unfold categorize_risk.
    change (of_int HIGH_RISK_THRESHOLD) with (Fin 100).
    change (of_int MEDIUM_RISK_THRESHOLD) with (Fin 500).
    destruct (fle d (Fin 100)) eqn:E1.
    + rewrite (Hmono eq_refl). simpl. repeat split; intros; try tauto;
        try discriminate; destruct H; discriminate.
    + destruct (fle d (Fin 500)) eqn:E2; simpl; repeat split; intros;
        try tauto; try discriminate; try (destruct H; discriminate).
Qed.

Lemma categorize_risk_partitions_witness :
  fle (Fin 0) (Fin 100) = true
  /\ categorize_risk (Fin 100) = band_label High
  /\ categorize_risk (Fin 500) = band_label Medium.
Proof.
  split; [reflexivity |]. split.
  - destruct (categorize_risk_partitions (Fin 100) eq_refl) as (_ & H & _).
    apply H. reflexivity.
  - destruct (categorize_risk_partitions (Fin 500) eq_refl) as (_ & _ & H & _).
    apply H. split; reflexivity.
Defined.

(** C4, as the code has it: the classifier has no failure; every negative
    value, minus infinity included, is given the High band. *)
Theorem negative_distance_is_high (d : f64) :
  flt d (Fin 0) = true -> categorize_risk d = band_label High.
Proof.
  intros Hneg. unfold categorize_risk.
  change (of_int HIGH_RISK_THRESHOLD) with (Fin 100).
  assert (H : fle d (Fin 100) = true).
  { eapply fle_trans; [apply flt_true_fle; exact Hneg | reflexivity]. }
  now rewrite H.
Qed.

Lemma negative_distance_is_high_witness :
  flt (Fin (-5)) (Fin 0) = true /\ categorize_risk (Fin (-5)) = "High Risk (<100m)".
Proof.
  split; [reflexivity |].
  apply (negative_distance_is_high (Fin (-5))). reflexivity.
Defined.

(** C4, as the specification has it, fails at -5: the value is negative
    and the classifier answers with the High band. *)
Lemma negative_distance_not_rejected :
  flt (Fin (-5)) (of_int 0) = true
  /\ categorize_risk (Fin (-5)) = "High Risk (<100m)"
  /\ ~ rejects_negative_distances.
Proof.
  split; [reflexivity |]. split; [reflexivity |].
  intros H. apply (H (Fin (-5))); [reflexivity |].
  simpl. now left.
Qed.

Section Claims.

Context {geo : GeometryLib}.

(** ** The reported distance *)

Lemma min_dist_brute_force gdf_water_proj facility m :
  is_brute_force_min gdf_water_proj facility m
  <-> feq (min_dist gdf_water_proj facility) m = true.
Proof.
  unfold min_dist, GeoSeries_distance.
  set (xs := map (fun w => distance w facility) (geometry gdf_water_proj)).
  split.
  - intros [(w & Hw & Hwm) Hleast].
    apply feq_true in Hwm. destruct Hwm as [Hwm Hmw].
    assert (Hnum : is_nan (series_min xs) = false).
    { apply series_min_number. exists (distance w facility). split.
      - unfold xs. apply in_map_iff. now exists w.
      - eapply fle_number_l; eassumption. }
    destruct (series_min_spec xs Hnum) as [Hin Hle].
    apply feq_true. split.
    + eapply fle_trans; [| exact Hwm].
      apply Hle; [unfold xs; apply in_map_iff; now exists w
                 | eapply fle_number_l; eassumption].
    + unfold xs in Hin. apply in_map_iff in Hin.
      destruct Hin as (w' & Hw' & Hin).
      fold xs in Hw'. rewrite <- Hw'. apply Hleast; [assumption |].
      now rewrite Hw'.
  - intros Heq. apply feq_true in Heq. destruct Heq as [Hsm Hms].
    assert (Hnum : is_nan (series_min xs) = false)
      by (eapply fle_number_l; eassumption).
    destruct (series_min_spec xs Hnum) as [Hin Hle].
    split.
    + unfold xs in Hin. apply in_map_iff in Hin.
      destruct Hin as (w' & Hw' & Hin). fold xs in Hw'.
      exists w'. split; [assumption |].
      rewrite Hw'. apply feq_true. now split.
    + intros w Hw Hn. eapply fle_trans; [exact Hms |].
      apply Hle; [unfold xs; apply in_map_iff; now exists w | assumption].
Qed.

Lemma min_dist_no_feature gdf_water_proj facility :
  geometry gdf_water_proj = [] -> min_dist gdf_water_proj facility = NaN.
Proof. intros H. unfold min_dist, GeoSeries_distance. rewrite H. reflexivity. Qed.

Lemma Forall2_map_self {A B : Type} (f : A -> B) (R : A -> B -> Prop) (l : list A) :
  (forall a, R a (f a)) -> Forall2 R l (map f l).
Proof. intros H. induction l; simpl; constructor; auto. Qed.

(** C1: the distance the loop records for a facility is the brute-force
    minimum over the features of the collection: a value is that minimum
    exactly when it equals the recorded distance.  The recorded distances
    are the entries of the distance column, one per facility in order. *)
Theorem engine_reports_brute_force_minimum
  (gdf_facilities_proj gdf_water_proj : GeoDataFrame) :
  exists out,
    calculate_distance_and_categorize_risk gdf_facilities_proj gdf_water_proj = Ok out
    /\ get_column "Distance_to_Water_m" (columns out)
       = Ok (map VNum (distances_loop gdf_water_proj (geometry gdf_facilities_proj)))
    /\ Forall2
         (fun facility d =>
            forall m, is_brute_force_min gdf_water_proj facility m <-> feq d m = true)
         (geometry gdf_facilities_proj)
         (distances_loop gdf_water_proj (geometry gdf_facilities_proj)).
Proof.
  eexists. split; [apply calculate_ok |]. split.
  - cbn [columns]. rewrite get_column_assign_other by discriminate.
    rewrite get_column_assign_same. now rewrite distances_loop_map.
  - rewrite distances_loop_map. apply Forall2_map_self.
    intros facility m. apply min_dist_brute_force.
Qed.


(** ** Water collections without features *)

Lemma map_constant {A B : Type} (f : A -> B) (c : B) (l : list A) :
  (forall a, f a = c) -> map f l = repeat c (List.length l).
Proof. intros H. induction l; simpl; [reflexivity |]. now rewrite H, IHl. Qed.

(** C3, as the code has it: with a water collection that has no feature
    the function does not fail; every facility keeps its row, its
    distance is not-a-number and its band is Low. *)
Theorem empty_water_labels_low (gdf_facilities_proj gdf_water_proj : GeoDataFrame) :
  geometry gdf_water_proj = [] ->
  exists out,
    calculate_distance_and_categorize_risk gdf_facilities_proj gdf_water_proj = Ok out
    /\ geometry out = geometry gdf_facilities_proj
    /\ get_column "Distance_to_Water_m" (columns out)
       = Ok (repeat (VNum NaN) (nrows gdf_facilities_proj))
    /\ get_column "Risk_Category" (columns out)
       = Ok (repeat (VStr "Low Risk (>500m)") (nrows gdf_facilities_proj)).
Proof.
  intros Hempty.
  eexists. split; [apply calculate_ok |]. cbn [columns geometry].
  assert (Hds : map (min_dist gdf_water_proj) (geometry gdf_facilities_proj)
                = repeat NaN (nrows gdf_facilities_proj)).
  { apply map_constant. intros f. now apply min_dist_no_feature. }
  split; [reflexivity |]. rewrite Hds. split.
  - rewrite get_column_assign_other by discriminate.
    rewrite get_column_assign_same. now rewrite map_repeat.
  - rewrite get_column_assign_same. unfold labels. now rewrite map_repeat.
Qed.

(** ** Distances are not negative *)

Lemma Forall2_map_in {A B : Type} (f : A -> B) (R : A -> B -> Prop) (l : list A) :
  (forall a, In a l -> R a (f a)) -> Forall2 R l (map f l).
Proof.
  induction l as [| a l IH]; intros H; simpl; constructor.
  - apply H. now left.
  - apply IH. intros b Hb. apply H. now right.
Qed.

(** C7, as the code has it: when the geometry library gives no negative
    distance, no distance the loop records is negative, with or without
    water features, and these are the values the classifier is applied
    to.  A recorded distance is a number, and then at least 0, exactly
    when some feature has a distance to the facility; otherwise it is
    not-a-number and the facility gets the Low band. *)
Theorem pipeline_distances_never_negative
  (gdf_facilities_proj gdf_water_proj : GeoDataFrame) :
  (forall w f, In w (geometry gdf_water_proj) -> In f (geometry gdf_facilities_proj) ->
               flt (distance w f) (Fin 0) = false) ->
  exists out ds,
    calculate_distance_and_categorize_risk gdf_facilities_proj gdf_water_proj = Ok out
    /\ get_column "Distance_to_Water_m" (columns out) = Ok (map VNum ds)
    /\ get_column "Risk_Category" (columns out) = Ok (labels ds)
    /\ Forall2
         (fun facility d =>
            flt d (Fin 0) = false
            /\ (is_nan d = false
                <-> exists w, In w (geometry gdf_water_proj)
                              /\ is_nan (distance w facility) = false)
            /\ (is_nan d = false -> fle (Fin 0) d = true)
            /\ (is_nan d = true -> categorize_risk d = band_label Low))
         (geometry gdf_facilities_proj) ds.
Proof.
  intros Hlib.
  eexists. exists (map (min_dist gdf_water_proj) (geometry gdf_facilities_proj)).
  split; [apply calculate_ok |]. cbn [columns]. split; [| split].
  - rewrite get_column_assign_other by discriminate. apply get_column_assign_same.
  - apply get_column_assign_same.
  - apply Forall2_map_in. intros f Hf.
    unfold min_dist, GeoSeries_distance.
    set (xs := map (fun w => distance w f) (geometry gdf_water_proj)).
    assert (Hnum : is_nan (series_min xs) = false ->
                   flt (series_min xs) (Fin 0) = false
                   /\ exists w, In w (geometry gdf_water_proj)
                                /\ is_nan (distance w f) = false).
    { intros Hn. destruct (series_min_spec xs Hn) as [Hin _].
      unfold xs in Hin. apply in_map_iff in Hin. destruct Hin as (w & Hw & Hin).
      fold xs in Hw. split.
      - rewrite <- Hw. now apply Hlib.
      - exists w. split; [assumption |]. now rewrite Hw. }
    split; [| split; [| split]].
    + destruct (is_nan (series_min xs)) eqn:E; [| now apply Hnum].
      destruct (series_min xs); try discriminate. reflexivity.
    + split; [intros Hn; now apply Hnum |].
      intros (w & Hw & Hn). apply series_min_number.
      exists (distance w f). split; [| assumption].
      unfold xs. apply in_map_iff. now exists w.
    + intros Hn. apply flt_false_fle; [reflexivity | assumption | now apply Hnum].
    + intros Hn. destruct (series_min xs); try discriminate. reflexivity.
Qed.



(** ** The frame of the engine *)

Lemma engine_keeps_other_columns gdf gdf_water_proj :
  exists out,
    calculate_distance_and_categorize_risk gdf gdf_water_proj = Ok out
    /\ filter (fun c => negb (derived (fst c))) (columns out)
       = filter (fun c => negb (derived (fst c))) (columns gdf)
    /\ (forall n, In n (map fst (columns gdf)) -> In n (map fst (columns out))).
Proof.
  eexists. split; [apply calculate_ok |]. cbn [columns]. split.
  - rewrite !assign_derived_filter by reflexivity. reflexivity.
  - intros n Hn. now do 2 apply assign_names_kept.
Qed.

(** C8: on a frame that does not have the two derived columns yet, the
    function leaves every column, the geometry and the reference system
    as they were and appends the distance and the risk column after the
    last column, in that order. *)
Theorem engine_appends_derived_columns
  (gdf_facilities_proj gdf_water_proj : GeoDataFrame) :
  derived_absent gdf_facilities_proj ->
  exists ds,
    calculate_distance_and_categorize_risk gdf_facilities_proj gdf_water_proj
    = Ok {| columns := columns gdf_facilities_proj
                       ++ [("Distance_to_Water_m", map VNum ds);
                           ("Risk_Category", labels ds)];
            geometry := geometry gdf_facilities_proj;
            crs := crs gdf_facilities_proj |}
    /\ ds = map (min_dist gdf_water_proj) (geometry gdf_facilities_proj).
Proof.
  intros [Hd Hr].
  exists (map (min_dist gdf_water_proj) (geometry gdf_facilities_proj)).
  split; [| reflexivity].
  rewrite calculate_ok. do 2 f_equal.
  rewrite (assign_absent "Distance_to_Water_m") by assumption.
  rewrite assign_absent.
  - now rewrite <- app_assoc.
  - rewrite map_app, in_app_iff. simpl. intros [H | [H | []]]; [tauto | discriminate].
Qed.

(** ** Records and the report *)

Lemma generate_reports_rows gdf report :
  generate_reports gdf = Ok report ->
  csv_header report = REPORT_COLUMNS
  /\ csv_rows report
     = map (fun r => map (fun name => cell name (snd r)) REPORT_COLUMNS) (iterrows gdf).
Proof.
  unfold generate_reports, to_crs. destruct (crs gdf) as [c |]; [| discriminate].
  cbn [bind columns].
  destruct (select REPORT_COLUMNS (columns gdf)) as [sel |] eqn:E; [| discriminate].
  cbn [bind]. intros [= <-]. unfold to_csv. cbn [csv_header csv_rows df_columns df_nrows].
  split.
  - clear - E. revert sel E. generalize REPORT_COLUMNS as names.
    induction names as [| n names IH]; simpl; intros sel H.
    + now injection H as <-.
    + destruct (get_column n (columns gdf)); simpl in H; [| discriminate].
      destruct (select names (columns gdf)) as [sel' |]; simpl in H; [| discriminate].
      injection H as <-. simpl. f_equal. now apply IH.
  - unfold iterrows, nrows. cbn [geometry]. rewrite length_map, map_map. cbn [snd fst].
    rewrite <- (combine_fst (seq 0 (List.length (geometry gdf))) (geometry gdf))
      at 1 by apply length_seq.
    rewrite map_map. apply map_ext. intros [i g]. cbn [fst].
    now apply select_row.
Qed.

(** C5: the function returns, and its frame has the facilities of the
    input, one record each, in the order of the input: the same
    geometries, the same original fields, and in each record the distance
    of that record's own facility.  The report, when it is written, has
    one line per record, in the same order. *)
Theorem records_follow_input_order
  (gdf_facilities_proj gdf_water_proj : GeoDataFrame) :
  exists out,
    calculate_distance_and_categorize_risk gdf_facilities_proj gdf_water_proj = Ok out
    /\ List.length (iterrows out) = List.length (iterrows gdf_facilities_proj)
    /\ map fst (iterrows out) = map fst (iterrows gdf_facilities_proj)
    /\ map (fun r => original_fields (snd r)) (iterrows out)
       = map (fun r => original_fields (snd r)) (iterrows gdf_facilities_proj)
    /\ map (fun r => field "Distance_to_Water_m" (snd r)) (iterrows out)
       = map (fun r => Some (VNum (min_dist gdf_water_proj (fst r))))
             (iterrows gdf_facilities_proj)
    /\ (forall report, generate_reports out = Ok report ->
          csv_rows report
          = map (fun r => map (fun name => cell name (snd r)) REPORT_COLUMNS)
                (iterrows out)).
Proof.
  eexists. split; [apply calculate_ok |].
  unfold iterrows, nrows. cbn [columns geometry].
  split; [now rewrite !length_map |].
  rewrite !map_map. cbn [fst snd].
  split; [reflexivity |]. split; [| split].
  - apply map_ext. intros [i g]. cbn [fst].
    rewrite !original_fields_row_at.
    now rewrite !assign_derived_filter by reflexivity.
  - apply (map_indexed_ext
             (fun ig => field "Distance_to_Water_m" (row_at (fst ig) _))
             (fun ig => Some (VNum (min_dist gdf_water_proj (snd ig))))).
    intros i g Hg. cbn [fst snd Nat.add].
    erewrite field_row_at.
    2: { rewrite get_column_assign_other by discriminate.
         apply get_column_assign_same. }
    f_equal.
    now apply (cell_at_map (fun x => VNum (min_dist gdf_water_proj x))).
  - intros report H. apply generate_reports_rows in H.
    destruct H as [_ ->]. unfold iterrows, nrows. cbn [columns geometry].
    now rewrite map_map.
Qed.

(** C6, as the code has it: for a frame with a reference system and the
    four named columns, the report is written; its header is the six
    names in order, it has one line per facility in input order, the
    distance cell is the recorded distance itself, not rounded, and the
    risk cell is one of the three band labels. *)
Theorem report_table
  (gdf_facilities_proj gdf_water_proj : GeoDataFrame) (c : CRS)
  (names counties lats lons : list value) :
  crs gdf_facilities_proj = Some c ->
  get_column "FACILITY_NAME" (columns gdf_facilities_proj) = Ok names ->
  get_column "COUNTY" (columns gdf_facilities_proj) = Ok counties ->
  get_column "LATITUDE" (columns gdf_facilities_proj) = Ok lats ->
  get_column "LONGITUDE" (columns gdf_facilities_proj) = Ok lons ->
  exists out report,
    calculate_distance_and_categorize_risk gdf_facilities_proj gdf_water_proj = Ok out
    /\ generate_reports out = Ok report
    /\ csv_header report
       = ["FACILITY_NAME"; "COUNTY"; "LATITUDE"; "LONGITUDE";
          "Distance_to_Water_m"; "Risk_Category"]
    /\ csv_rows report
       = map (fun ig =>
                [cell_at (fst ig) names; cell_at (fst ig) counties;
                 cell_at (fst ig) lats; cell_at (fst ig) lons;
                 VNum (min_dist gdf_water_proj (snd ig));
                 VStr (categorize_risk (min_dist gdf_water_proj (snd ig)))])
             (combine (seq 0 (nrows gdf_facilities_proj))
                      (geometry gdf_facilities_proj))
    /\ List.length (csv_rows report) = nrows gdf_facilities_proj
    /\ Forall (fun row => exists b, nth 5 row NA = VStr (band_label b))
              (csv_rows report).
Proof.
  intros Hcrs Hn Hc Hlat Hlon.
  set (ds := map (min_dist gdf_water_proj) (geometry gdf_facilities_proj)).
  set (rows := map (fun ig =>
                [cell_at (fst ig) names; cell_at (fst ig) counties;
                 cell_at (fst ig) lats; cell_at (fst ig) lons;
                 VNum (min_dist gdf_water_proj (snd ig));
                 VStr (categorize_risk (min_dist gdf_water_proj (snd ig)))])
             (combine (seq 0 (nrows gdf_facilities_proj))
                      (geometry gdf_facilities_proj))).
  assert (Hrows : generate_reports
            {| columns := assign "Risk_Category" (labels ds)
                            (assign "Distance_to_Water_m" (map VNum ds)
                               (columns gdf_facilities_proj));
               geometry := geometry gdf_facilities_proj;
               crs := crs gdf_facilities_proj |}
          = Ok {| csv_header := REPORT_COLUMNS; csv_rows := rows |}).
  { unfold generate_reports, to_crs. cbn [crs columns geometry]. rewrite Hcrs.
    cbn [bind columns]. unfold REPORT_COLUMNS at 1. cbn [select].
    rewrite !get_column_assign_same.
    repeat (rewrite get_column_assign_other by discriminate).
    rewrite get_column_assign_same, Hn, Hc, Hlat, Hlon. cbn [bind].
    unfold to_csv. cbn [df_columns df_nrows map fst]. f_equal. f_equal.
    unfold rows, nrows. cbn [geometry]. rewrite length_map.
    rewrite <- (combine_fst (seq 0 (List.length (geometry gdf_facilities_proj)))
                            (geometry gdf_facilities_proj))
      at 1 by apply length_seq.
    rewrite map_map.
    apply (map_indexed_ext
             (fun ig => map snd (row_at (fst ig) _))
             (fun ig => [cell_at (fst ig) names; cell_at (fst ig) counties;
                         cell_at (fst ig) lats; cell_at (fst ig) lons;
                         VNum (min_dist gdf_water_proj (snd ig));
                         VStr (categorize_risk (min_dist gdf_water_proj (snd ig)))])).
    intros i g Hg. cbn [fst snd Nat.add row_at map].
    unfold ds, labels. rewrite !map_map.
    rewrite (cell_at_map (fun x => VNum (min_dist gdf_water_proj x)) _ _ _ Hg).
    rewrite (cell_at_map (fun x => VStr (categorize_risk (min_dist gdf_water_proj x)))
                         _ _ _ Hg).
    reflexivity. }
  eexists. eexists. split; [apply calculate_ok |].
  split; [exact Hrows |]. cbn [csv_header csv_rows].
  split; [reflexivity |]. split; [reflexivity |]. split.
  - unfold rows, nrows. rewrite length_map, length_combine, length_seq.
    apply Nat.min_id.
  - apply Forall_forall. intros row Hrow. unfold rows in Hrow.
    apply in_map_iff in Hrow. destruct Hrow as (ig & <- & _).
    cbn [nth]. destruct (categorize_risk_band (min_dist gdf_water_proj (snd ig))) as [b ->].
    now exists b.
Qed.



End Claims.

(** ** The program on the line geometry *)

Example classifier_scenario :
  map categorize_risk
      [Fin 45; Fin 100; Fin (10001 # 100); Fin 500; Fin (50001 # 100); PosInf; NaN]
  = ["High Risk (<100m)"; "High Risk (<100m)"; "Medium Risk (101-500m)";
     "Medium Risk (101-500m)"; "Low Risk (>500m)"; "Low Risk (>500m)";
     "Low Risk (>500m)"].
Proof. reflexivity. Qed.

Example series_min_skips_missing :
  series_min [NaN; Fin 7; Fin 3; NaN; Fin 5] = Fin 3.
Proof. reflexivity. Qed.

Example line_missing_geometry :
  min_dist (Line.frame [] [None] (Some TARGET_CRS)) (Some 45) = NaN
  /\ min_dist (Line.frame [] [None; Some 50] (Some TARGET_CRS)) (Some 45) = Fin 5.
Proof. split; reflexivity. Qed.

Example line_distances :
  distances_loop Line.water (geometry Line.facilities) = [Fin 45; Fin 300; Fin 1000].
Proof. reflexivity. Qed.

Example line_report :
  (gdf_classified <-
     calculate_distance_and_categorize_risk Line.facilities Line.water ;;
   generate_reports gdf_classified)
  = Ok {| csv_header := REPORT_COLUMNS;
          csv_rows :=
            [[VStr "Alpha"; VStr "Alameda"; VNum (Fin 37); VNum (Fin (-122));
              VNum (Fin 45); VStr "High Risk (<100m)"];
             [VStr "Bravo"; VStr "Marin"; VNum (Fin 38); VNum (Fin (-123));
              VNum (Fin 300); VStr "Medium Risk (101-500m)"];
             [VStr "Charlie"; VStr "Napa"; VNum (Fin (77 # 2)); VNum (Fin (-245 # 2));
              VNum (Fin 1000); VStr "Low Risk (>500m)"]] |}.
Proof. reflexivity. Qed.


Lemma empty_water_labels_low_witness :
  geometry Line.no_water = []
  /\ exists out,
       calculate_distance_and_categorize_risk Line.facilities Line.no_water = Ok out
       /\ get_column "Distance_to_Water_m" (columns out) = Ok (repeat (VNum NaN) 3)
       /\ get_column "Risk_Category" (columns out)
          = Ok (repeat (VStr "Low Risk (>500m)") 3).
Proof.
  split; [reflexivity |].
  destruct (empty_water_labels_low Line.facilities Line.no_water eq_refl)
    as (out & Hout & _ & Hd & Hr).
  exists out. split; [exact Hout |]. split; [exact Hd | exact Hr].
Defined.

(** C3, as the specification has it, fails on three facilities and a
    water collection without features: the function returns and each
    facility carries the Low band. *)
Lemma empty_water_not_marked_unclassifiable :
  geometry Line.no_water = []
  /\ (exists out,
        calculate_distance_and_categorize_risk Line.facilities Line.no_water = Ok out
        /\ get_column "Risk_Category" (columns out)
           = Ok [VStr (band_label Low); VStr (band_label Low); VStr (band_label Low)])
  /\ ~ marked_unclassifiable
         (calculate_distance_and_categorize_risk Line.facilities Line.no_water).
Proof.
  split; [reflexivity |]. split.
  - eexists. split; reflexivity.
  - intros (out & risk & Hout & Hrisk & Hnone).
    vm_compute in Hout. injection Hout as <-.
    vm_compute in Hrisk. injection Hrisk as <-.
    apply (Hnone (VStr "Low Risk (>500m)") (or_introl eq_refl) Low). reflexivity.
Qed.

Lemma report_table_witness :
  crs Line.facilities = Some TARGET_CRS
  /\ get_column "FACILITY_NAME" (columns Line.facilities)
     = Ok [VStr "Alpha"; VStr "Bravo"; VStr "Charlie"]
  /\ get_column "COUNTY" (columns Line.facilities)
     = Ok [VStr "Alameda"; VStr "Marin"; VStr "Napa"]
  /\ get_column "LATITUDE" (columns Line.facilities)
     = Ok [VNum (Fin 37); VNum (Fin 38); VNum (Fin (77 # 2))]
  /\ get_column "LONGITUDE" (columns Line.facilities)
     = Ok [VNum (Fin (-122)); VNum (Fin (-123)); VNum (Fin (-245 # 2))]
  /\ exists out report,
       calculate_distance_and_categorize_risk Line.facilities Line.water = Ok out
       /\ generate_reports out = Ok report
       /\ csv_header report = REPORT_COLUMNS
       /\ List.length (csv_rows report) = 3%nat.
Proof.
  repeat (split; [reflexivity |]).
  destruct (report_table Line.facilities Line.water TARGET_CRS _ _ _ _
              eq_refl eq_refl eq_refl eq_refl eq_refl)
    as (out & report & Hout & Hrep & Hhead & _ & Hlen & _).
  exists out, report. repeat split; assumption.
Defined.

(** C6, as the specification has it, fails for a facility an eighth of a
    metre from the water: the report is written and its distance cell is
    0.125, which is not a number of two decimals. *)
Lemma report_distance_not_two_decimals :
  exists out report,
    calculate_distance_and_categorize_risk Line.near_facility Line.shore = Ok out
    /\ generate_reports out = Ok report
    /\ csv_rows report
       = [[VStr "Delta"; VStr "Solano"; VNum (Fin 38); VNum (Fin (-122));
           VNum (Fin (1 # 8)); VStr "High Risk (<100m)"]]
    /\ ~ distances_written_with_two_decimals report.
Proof.
  eexists. eexists. split; [reflexivity |]. split; [reflexivity |].
  split; [reflexivity |].
  intros H. destruct (H _ (or_introl eq_refl)) as (x & Hx & Htwo).
  injection Hx as <-. discriminate Htwo.
Qed.


Lemma engine_appends_derived_columns_witness :
  derived_absent Line.facilities
  /\ exists ds,
       calculate_distance_and_categorize_risk Line.facilities Line.water
       = Ok (Line.frame
               (columns Line.facilities
                ++ [("Distance_to_Water_m", map VNum ds); ("Risk_Category", labels ds)])
               (geometry Line.facilities) (crs Line.facilities)).
Proof.
  assert (Habs : derived_absent Line.facilities).
  { split; simpl; intros H;
      repeat (destruct H as [H | H]; [discriminate H |]); exact H. }
  split; [exact Habs |].
  destruct (engine_appends_derived_columns Line.facilities Line.water Habs)
    as (ds & Hout & _).
  exists ds. exact Hout.
Defined.



(** * Further properties of the program *)

(** ** The classifier and the colours *)

Lemma fle_feq_l x y z : feq x y = true -> fle x z = fle y z.
Proof.
  intros H. apply feq_true in H. destruct H as [Hxy Hyx].
  destruct (fle x z) eqn:Ex, (fle y z) eqn:Ey; try reflexivity.
  - rewrite (fle_trans _ _ _ Hyx Ex) in Ey. discriminate.
  - rewrite (fle_trans _ _ _ Hxy Ey) in Ex. discriminate.
Qed.

Lemma categorize_risk_feq x y :
  feq x y = true -> categorize_risk x = categorize_risk y.
Proof.
  intros H. unfold categorize_risk. now rewrite !(fle_feq_l x y _ H).
Qed.

(** X1: the classifier is monotone: of two values in order, the smaller
    one never gets a band farther from the water than the larger one. *)
Theorem categorize_risk_monotone (d1 d2 : f64) (b1 b2 : band) :
  fle d1 d2 = true ->
  categorize_risk d1 = band_label b1 ->
  categorize_risk d2 = band_label b2 ->
  (band_rank b1 <= band_rank b2)%nat.
Proof.
  intros Hle H1 H2. unfold categorize_risk in H1, H2.
  destruct (fle d2 (of_int HIGH_RISK_THRESHOLD)) eqn:E2.
  - rewrite (fle_trans _ _ _ Hle E2) in H1.
    apply (band_label_injective High) in H1.
    apply (band_label_injective High) in H2. subst. apply Nat.le_refl.
  - destruct (fle d2 (of_int MEDIUM_RISK_THRESHOLD)) eqn:E3.
    + rewrite (fle_trans _ _ _ Hle E3) in H1.
      apply (band_label_injective Medium) in H2. subst b2.
      destruct (fle d1 (of_int HIGH_RISK_THRESHOLD)).
      * apply (band_label_injective High) in H1. subst. simpl. auto.
      * apply (band_label_injective Medium) in H1. subst. apply Nat.le_refl.
    + apply (band_label_injective Low) in H2. subst b2.
      destruct b1; simpl; auto.
Qed.

Lemma categorize_risk_monotone_witness :
  fle (Fin 45) (Fin 300) = true
  /\ categorize_risk (Fin 45) = band_label High
  /\ categorize_risk (Fin 300) = band_label Medium
  /\ (band_rank High <= band_rank Medium)%nat.
Proof.
  repeat (split; [reflexivity |]).
  apply (categorize_risk_monotone (Fin 45) (Fin 300)); reflexivity.
Defined.

(** X13: the colour of a marker as a function of the distance it stands
    for: red exactly when the distance is at most 100, orange exactly
    when it is not but is at most 500, blue in every other case,
    not-a-number included; the fallback grey is never the colour of a
    classified distance. *)
Theorem marker_color_of_distance (d : f64) :
  (risk_color (VStr (categorize_risk d)) = "red" <-> fle d (Fin 100) = true)
  /\ (risk_color (VStr (categorize_risk d)) = "orange"
      <-> fle d (Fin 100) = false /\ fle d (Fin 500) = true)
  /\ (risk_color (VStr (categorize_risk d)) = "blue"
      <-> fle d (Fin 100) = false /\ fle d (Fin 500) = false)
  /\ risk_color (VStr (categorize_risk d)) <> "gray".
Proof.
  unfold categorize_risk.
  change (of_int HIGH_RISK_THRESHOLD) with (Fin 100).
  change (of_int MEDIUM_RISK_THRESHOLD) with (Fin 500).
  destruct (fle d (Fin 100)) eqn:E1; [| destruct (fle d (Fin 500)) eqn:E2];
    cbn; repeat split; intros; try discriminate; try tauto;
    try (destruct H; discriminate).
Qed.

Section FurtherEngine.

Context {geo : GeometryLib}.

(** ** The water collection *)

Lemma series_min_more xs ys :
  (forall x, In x xs -> In x ys) ->
  is_nan (series_min xs) = false ->
  is_nan (series_min ys) = false
  /\ fle (series_min ys) (series_min xs) = true.
Proof.
  intros Hsub Hnum.
  destruct (series_min_spec xs Hnum) as [Hin _].
  assert (Hys : is_nan (series_min ys) = false).
  { apply series_min_number. exists (series_min xs). auto. }
  split; [exact Hys |].
  apply (series_min_spec ys Hys); auto.
Qed.

Lemma min_dist_more (gdf_water gdf_more : GeoDataFrame) (facility : Geometry) :
  (forall w, In w (geometry gdf_water) -> In w (geometry gdf_more)) ->
  forall x, In x (GeoSeries_distance gdf_water facility) ->
            In x (GeoSeries_distance gdf_more facility).
Proof.
  intros Hsub x Hx. unfold GeoSeries_distance in *.
  apply in_map_iff in Hx. destruct Hx as (w & <- & Hw).
  apply in_map_iff. exists w. auto.
Qed.

(** X2: a water collection with more features never gives a facility a
    larger distance: when the smaller collection gives a number, the
    larger one gives a number that is at most that. *)
Theorem more_water_is_nearer (gdf_water gdf_more : GeoDataFrame) (facility : Geometry) :
  (forall w, In w (geometry gdf_water) -> In w (geometry gdf_more)) ->
  is_nan (min_dist gdf_water facility) = false ->
  is_nan (min_dist gdf_more facility) = false
  /\ fle (min_dist gdf_more facility) (min_dist gdf_water facility) = true.
Proof.
  intros Hsub Hnum. unfold min_dist in *.
  apply series_min_more; [| exact Hnum].
  now apply min_dist_more.
Qed.

(** X3: the distance and the band of a facility do not depend on the
    order, or on the repetition, of the features in the water layer: two
    layers with the same features give equal distances, or both none, and
    the same band. *)
Theorem feature_order_is_irrelevant (gdf_water1 gdf_water2 : GeoDataFrame)
  (facility : Geometry) :
  (forall w, In w (geometry gdf_water1) <-> In w (geometry gdf_water2)) ->
  (feq (min_dist gdf_water1 facility) (min_dist gdf_water2 facility) = true
   \/ (min_dist gdf_water1 facility = NaN /\ min_dist gdf_water2 facility = NaN))
  /\ categorize_risk (min_dist gdf_water1 facility)
     = categorize_risk (min_dist gdf_water2 facility).
Proof.
  intros Hsame.
  assert (H12 : forall x, In x (GeoSeries_distance gdf_water1 facility) ->
                         In x (GeoSeries_distance gdf_water2 facility))
    by (apply min_dist_more; intros w; apply Hsame).
  assert (H21 : forall x, In x (GeoSeries_distance gdf_water2 facility) ->
                         In x (GeoSeries_distance gdf_water1 facility))
    by (apply min_dist_more; intros w; apply Hsame).
  unfold min_dist.
  set (xs1 := GeoSeries_distance gdf_water1 facility) in *.
  set (xs2 := GeoSeries_distance gdf_water2 facility) in *.
  destruct (is_nan (series_min xs1)) eqn:E1.
  - destruct (is_nan (series_min xs2)) eqn:E2.
    + destruct (series_min xs1); try discriminate.
      destruct (series_min xs2); try discriminate.
      split; [right; split; reflexivity | reflexivity].
    + destruct (series_min_more xs2 xs1 H21 E2) as [Hn _]. congruence.
  - destruct (series_min_more xs1 xs2 H12 E1) as [E2 Hle21].
    destruct (series_min_more xs2 xs1 H21 E2) as [_ Hle12].
    assert (Heq : feq (series_min xs1) (series_min xs2) = true)
      by (apply feq_true; now split).
    split; [now left | now apply categorize_risk_feq].
Qed.

End FurtherEngine.

(** ** Columns, again *)

Lemma assign_same_values name vals cols :
  get_column name cols = Ok vals -> assign name vals cols = cols.
Proof.
  induction cols as [| [n vs] rest IH]; simpl; [discriminate |].
  destruct (String.eqb n name) eqn:E.
  - now intros [= ->].
  - intros H. now rewrite IH.
Qed.

Lemma assign_names name vals cols :
  map fst (assign name vals cols) = map fst cols ++ if_absent name (map fst cols).
Proof.
  unfold if_absent. induction cols as [| [n vs] rest IH]; simpl; [reflexivity |].
  rewrite (String.eqb_sym name n).
  destruct (String.eqb n name) eqn:E; simpl.
  - now rewrite app_nil_r.
  - now rewrite IH.
Qed.

Lemma assign_Forall (P : column -> Prop) name vals cols :
  Forall P cols -> P (name, vals) -> Forall P (assign name vals cols).
Proof.
  intros Hall Hnew. induction Hall as [| [n vs] rest Hc Hrest IH]; simpl.
  - now constructor.
  - destruct (String.eqb n name) eqn:E.
    + apply String.eqb_eq in E. subst n. now constructor.
    + now constructor.
Qed.

Lemma get_column_absent name cols :
  ~ In name (map fst cols) -> get_column name cols = Raise (KeyError name).
Proof.
  induction cols as [| [n vs] rest IH]; simpl; [reflexivity |].
  intros H. destruct (String.eqb n name) eqn:E.
  - apply String.eqb_eq in E. tauto.
  - apply IH. tauto.
Qed.

Lemma get_column_present name cols :
  In name (map fst cols) -> exists vs, get_column name cols = Ok vs.
Proof.
  induction cols as [| [n vs] rest IH]; simpl; [tauto |].
  intros H. destruct (String.eqb n name) eqn:E; [now exists vs |].
  apply IH. destruct H as [H | H]; [| assumption].
  apply String.eqb_neq in E. congruence.
Qed.

Lemma get_column_outcome name cols :
  match get_column name cols with
  | Ok _ => In name (map fst cols)
  | Raise e => e = KeyError name /\ ~ In name (map fst cols)
  end.
Proof.
  destruct (in_dec string_dec name (map fst cols)) as [Hin | Hout].
  - destruct (get_column_present _ _ Hin) as [vs ->]. exact Hin.
  - rewrite (get_column_absent _ _ Hout). now split.
Qed.

Lemma select_outcome names cols :
  match select names cols with
  | Ok sel => map fst sel = names /\ forall n, In n names -> In n (map fst cols)
  | Raise e => exists k, e = KeyError k /\ In k names /\ ~ In k (map fst cols)
  end.
Proof.
  induction names as [| n names IH]; simpl.
  - split; [reflexivity | intros n []].
  - pose proof (get_column_outcome n cols) as Hn.
    destruct (get_column n cols) as [vs | e]; cbn [bind].
    + destruct (select names cols) as [sel | e]; cbn [bind].
      * destruct IH as [Hnames Hall]. split; [simpl; now f_equal |].
        intros k [<- | Hk]; auto.
      * destruct IH as (k & -> & Hk & Hout). exists k. auto.
    + destruct Hn as [-> Hout]. exists n. auto.
Qed.

Section FurtherFrames.

Context {geo : GeometryLib}.

(** ** Running the engine on its own result *)

(** X4: the function can be run again on the frame it returned: with the
    same water layer it returns that frame unchanged. *)
Theorem rerun_changes_nothing (gdf_facilities_proj gdf_water_proj : GeoDataFrame) :
  exists out,
    calculate_distance_and_categorize_risk gdf_facilities_proj gdf_water_proj = Ok out
    /\ calculate_distance_and_categorize_risk out gdf_water_proj = Ok out.
Proof.
  eexists. split; [apply calculate_ok |].
  rewrite calculate_ok. cbn [columns geometry crs]. do 2 f_equal.
  rewrite (assign_same_values "Distance_to_Water_m").
  - apply assign_same_values, get_column_assign_same.
  - rewrite get_column_assign_other by discriminate.
    apply get_column_assign_same.
Qed.

(** X5: the function keeps a frame well formed: when every column of the
    facility frame has one entry per row, so has every column of the
    frame it returns, the two derived ones included. *)
Theorem engine_keeps_frame_well_formed (gdf_facilities_proj gdf_water_proj : GeoDataFrame) :
  well_formed gdf_facilities_proj ->
  exists out,
    calculate_distance_and_categorize_risk gdf_facilities_proj gdf_water_proj = Ok out
    /\ well_formed out
    /\ nrows out = nrows gdf_facilities_proj
    /\ In "Distance_to_Water_m" (map fst (columns out))
    /\ In "Risk_Category" (map fst (columns out)).
Proof.
  intros Hwf. eexists. split; [apply calculate_ok |].
  unfold well_formed, nrows in *. cbn [columns geometry].
  split; [| split; [reflexivity | split]].
  - apply assign_Forall; [apply assign_Forall; [exact Hwf |] |]; cbn [snd];
      unfold labels; now rewrite !length_map.
  - rewrite !assign_names, !in_app_iff. unfold if_absent.
    destruct (existsb (String.eqb "Distance_to_Water_m")
                      (map fst (columns gdf_facilities_proj))) eqn:E.
    + apply existsb_exists in E. destruct E as (n & Hn & E).
      apply String.eqb_eq in E. subst n. auto.
    + simpl. auto.
  - rewrite assign_names, in_app_iff. unfold if_absent.
    match goal with |- context [existsb ?f ?l] => destruct (existsb f l) eqn:E end.
    + apply existsb_exists in E. destruct E as (n & Hn & E).
      apply String.eqb_eq in E. subst n. auto.
    + simpl. auto.
Qed.

(** X6: the columns of the returned frame, by name: the columns of the
    input in their order, then the distance column if the input did not
    have one, then the risk column if the input did not have one.  A
    derived column the input already has keeps its place. *)
Theorem engine_column_names (gdf_facilities_proj gdf_water_proj : GeoDataFrame) :
  exists out,
    calculate_distance_and_categorize_risk gdf_facilities_proj gdf_water_proj = Ok out
    /\ map fst (columns out)
       = map fst (columns gdf_facilities_proj)
         ++ if_absent "Distance_to_Water_m" (map fst (columns gdf_facilities_proj))
         ++ if_absent "Risk_Category" (map fst (columns gdf_facilities_proj)).
Proof.
  eexists. split; [apply calculate_ok |]. cbn [columns].
  rewrite !assign_names, <- app_assoc. do 2 f_equal.
  unfold if_absent at 1 3. rewrite existsb_app.
  destruct (existsb (String.eqb "Risk_Category")
                    (map fst (columns gdf_facilities_proj))); [reflexivity |].
  unfold if_absent.
  destruct (existsb (String.eqb "Distance_to_Water_m")
                    (map fst (columns gdf_facilities_proj))); reflexivity.
Qed.

(** ** The outcomes of [generate_reports] *)

(** X7: what [generate_reports] ends with, in every case: a report only
    for a frame that has a reference system and the six report columns;
    the reprojection's refusal for a frame without a reference system;
    otherwise a key error naming a report column the frame does not
    have. *)
Theorem generate_reports_outcomes (gdf_classified : GeoDataFrame) :
  match generate_reports gdf_classified with
  | Ok report =>
      crs gdf_classified <> None
      /\ (forall n, In n REPORT_COLUMNS -> In n (map fst (columns gdf_classified)))
      /\ csv_header report = REPORT_COLUMNS
      /\ List.length (csv_rows report) = nrows gdf_classified
  | Raise (ValueError _) => crs gdf_classified = None
  | Raise (KeyError k) =>
      crs gdf_classified <> None
      /\ In k REPORT_COLUMNS
      /\ ~ In k (map fst (columns gdf_classified))
  | Raise _ => False
  end.
Proof.
  unfold generate_reports, to_crs.
  destruct (crs gdf_classified) as [c |]; cbn [bind columns]; [| reflexivity].
  pose proof (select_outcome REPORT_COLUMNS (columns gdf_classified)) as Hsel.
  destruct (select REPORT_COLUMNS (columns gdf_classified)) as [sel | e]; cbn [bind].
  - destruct Hsel as [Hnames Hall]. split; [discriminate |]. split; [exact Hall |].
    unfold to_csv. cbn [csv_header csv_rows df_columns df_nrows]. split; [exact Hnames |].
    unfold nrows. cbn [geometry]. now rewrite !length_map, length_seq.
  - destruct Hsel as (k & -> & Hk & Hout). split; [discriminate |]. now split.
Qed.

(** X8: in the report every line agrees with itself: its risk cell is the
    band the classifier gives to its own distance cell. *)
Theorem report_lines_are_consistent
  (gdf_facilities_proj gdf_water_proj out : GeoDataFrame) (report : csv) :
  calculate_distance_and_categorize_risk gdf_facilities_proj gdf_water_proj = Ok out ->
  generate_reports out = Ok report ->
  Forall (fun line => exists d,
            nth 4 line NA = VNum d /\ nth 5 line NA = VStr (categorize_risk d))
         (csv_rows report).
Proof.
  intros Hout Hrep. rewrite calculate_ok in Hout. injection Hout as <-.
  apply generate_reports_rows in Hrep. destruct Hrep as [_ ->].
  apply Forall_forall. intros line Hline.
  apply in_map_iff in Hline. destruct Hline as ([g r] & <- & Hr).
  unfold iterrows in Hr. apply in_map_iff in Hr.
  destruct Hr as ([i g'] & [= <- <-] & Hig). cbn [snd fst columns] in *.
  set (ds := map (min_dist gdf_water_proj) (geometry gdf_facilities_proj)) in *.
  exists (nth i ds NaN). cbn [REPORT_COLUMNS map nth]. unfold cell.
  assert (Hi : (i < List.length ds)%nat).
  { apply in_combine_l in Hig. apply in_seq in Hig.
    unfold nrows in Hig. cbn [geometry] in Hig. unfold ds. rewrite length_map.
    apply Hig. }
  erewrite field_row_at
    by (rewrite get_column_assign_other by discriminate; apply get_column_assign_same).
  erewrite field_row_at by apply get_column_assign_same.
  unfold cell_at, labels. split.
  - rewrite (nth_indep _ NA (VNum NaN)) by now rewrite length_map.
    apply (map_nth VNum).
  - rewrite (nth_indep _ NA (VStr (categorize_risk NaN))) by now rewrite length_map.
    apply (map_nth (fun d => VStr (categorize_risk d))).
Qed.

End FurtherFrames.

(** ** Loading *)

Lemma in_combine_seq {A : Type} (l : list A) : forall (s i : nat) (a : A),
  In (i, a) (combine (seq s (List.length l)) l) ->
  nth_error l (i - s) = Some a /\ (s <= i)%nat.
Proof.
  induction l as [| x l IH]; intros s i a; simpl; [tauto |].
  intros [[= <- <-] | H].
  - rewrite Nat.sub_diag. split; [reflexivity | lia].
  - apply IH in H. destruct H as [H Hle].
    replace (i - s)%nat with (S (i - S s)) by lia. split; [exact H | lia].
Qed.

Lemma nth_error_combine {A B : Type} (l1 : list A) : forall (l2 : list B) i a b,
  nth_error (combine l1 l2) i = Some (a, b) ->
  nth_error l1 i = Some a /\ nth_error l2 i = Some b.
Proof.
  induction l1 as [| x l1 IH]; intros [| y l2] [| i] a b; simpl;
    try discriminate.
  - intros [= <- <-]. now split.
  - apply IH.
Qed.

Section FurtherPipeline.

Context {geo : GeometryLib} {py : Interpreter}.

Lemma load_by_layers (env : inputs) :
  load_and_transform_data env
  = match FACILITY_FILE env with
    | Missing => Ok None
    | Unreadable => Raise ReadError
    | Content df_facilities =>
        gdf_facilities <- facility_layer df_facilities ;;
        match WATER_FILE env with
        | Missing | Unreadable => Ok None
        | Content gdf_water =>
            gdf_facilities_proj <- to_crs TARGET_CRS gdf_facilities ;;
            gdf_water_proj <- to_crs TARGET_CRS gdf_water ;;
            Ok (Some (gdf_facilities_proj, gdf_water_proj))
        end
    end.
Proof.
  unfold load_and_transform_data, facility_layer.
  destruct (FACILITY_FILE env) as [| | df]; try reflexivity.
  destruct (get_column "LONGITUDE" (df_columns df)); cbn [bind]; [| reflexivity].
  destruct (get_column "LATITUDE" (df_columns df)); cbn [bind]; [| reflexivity].
  destruct (points a a0); cbn [bind]; reflexivity.
Qed.

Lemma facility_layer_frame df gdf :
  facility_layer df = Ok gdf ->
  columns gdf = df_columns df
  /\ crs gdf = Some (EPSG 4326)
  /\ nrows gdf = df_nrows df.
Proof.
  unfold facility_layer, new_GeoDataFrame.
  destruct (get_column "LONGITUDE" (df_columns df)); cbn [bind]; [| discriminate].
  destruct (get_column "LATITUDE" (df_columns df)); cbn [bind]; [| discriminate].
  destruct (points a a0) as [geoms |]; cbn [bind]; [| discriminate].
  destruct (Nat.eqb (List.length geoms) (df_nrows df)) eqn:E; [| discriminate].
  intros [= <-]. unfold nrows. cbn. apply Nat.eqb_eq in E. auto.
Qed.




(** X10: the main block ends quietly, with nothing written and nothing
    raised, in two cases only: the facility file is missing; or the
    facility layer was built and the water file is missing or cannot be
    read. *)
Theorem main_ends_without_output (env : inputs) :
  main env = (nothing_written, Ok tt)
  <-> (FACILITY_FILE env = Missing
       \/ ((exists df gdf, FACILITY_FILE env = Content df /\ facility_layer df = Ok gdf)
           /\ (WATER_FILE env = Missing \/ WATER_FILE env = Unreadable))).
Proof.
  unfold main. rewrite load_by_layers. split.
  - destruct (FACILITY_FILE env) as [| | df]; cbn [bind]; [now left | discriminate |].
    destruct (facility_layer df) as [gdf |] eqn:Elayer; cbn [bind]; [| discriminate].
    destruct (WATER_FILE env) as [| | gw]; cbn [bind].
    + intros _. right. split; [now exists df, gdf | now left].
    + intros _. right. split; [now exists df, gdf | now right].
    + destruct (to_crs TARGET_CRS gdf) as [f |]; cbn [bind]; [| discriminate].
      destruct (to_crs TARGET_CRS gw) as [w |]; cbn [bind]; [| discriminate].
      rewrite calculate_ok. unfold generate_reports_all.
      match goal with |- context [generate_reports ?x] =>
        destruct (generate_reports x); [destruct (generate_reports_map x) |] end;
        discriminate.
  - intros [-> | [(df & gdf & -> & Hlayer) Hwater]]; [reflexivity |].
    rewrite Hlayer. cbn [bind]. destruct Hwater as [-> | ->]; reflexivity.
Qed.

(** X14: a facility table without its longitude or its latitude column
    stops the run with a key error naming a missing one; the error is not
    caught by the loading step and nothing is written. *)
Theorem missing_coordinate_column_raises (env : inputs) (df_facilities : DataFrame) :
  FACILITY_FILE env = Content df_facilities ->
  (exists k, In k ["LONGITUDE"; "LATITUDE"]
             /\ ~ In k (map fst (df_columns df_facilities))) ->
  exists k,
    In k ["LONGITUDE"; "LATITUDE"]
    /\ ~ In k (map fst (df_columns df_facilities))
    /\ load_and_transform_data env = Raise (KeyError k)
    /\ main env = (nothing_written, Raise (KeyError k)).
Proof.
  intros Hfile (k & Hk & Hout).
  unfold main, load_and_transform_data. rewrite Hfile.
  pose proof (get_column_outcome "LONGITUDE" (df_columns df_facilities)) as Hlon.
  destruct (get_column "LONGITUDE" (df_columns df_facilities)) as [lons | e]; cbn [bind].
  - assert (Hlat : ~ In "LATITUDE" (map fst (df_columns df_facilities))).
    { destruct Hk as [<- | [<- | []]]; [contradiction | assumption]. }
    rewrite (get_column_absent _ _ Hlat). cbn [bind].
    exists "LATITUDE". repeat split; simpl; auto.
  - destruct Hlon as [-> Hno]. exists "LONGITUDE". repeat split; simpl; auto.
Qed.

(** ** Layers without a usable reference system *)


End FurtherPipeline.

(** ** From the two files to the report and the map *)


Section FurtherReports.

Context {geo : GeometryLib} {py : Interpreter}.

Lemma generate_reports_frame (gdf_classified : GeoDataFrame) :
  generate_reports gdf_classified
  = (df_report <- report_frame gdf_classified ;; Ok (to_csv df_report)).
Proof.
  unfold generate_reports, report_frame.
  destruct (to_crs (EPSG 4326) gdf_classified) as [g |]; cbn [bind]; [| reflexivity].
  destruct (select REPORT_COLUMNS (columns g)); reflexivity.
Qed.

Lemma report_frame_of_engine (gdf : GeoDataFrame) (c : CRS)
  (ds : list f64) (names counties lats lons : list value) :
  crs gdf = Some c ->
  get_column "FACILITY_NAME" (columns gdf) = Ok names ->
  get_column "COUNTY" (columns gdf) = Ok counties ->
  get_column "LATITUDE" (columns gdf) = Ok lats ->
  get_column "LONGITUDE" (columns gdf) = Ok lons ->
  report_frame
    {| columns := assign "Risk_Category" (labels ds)
                    (assign "Distance_to_Water_m" (map VNum ds) (columns gdf));
       geometry := geometry gdf;
       crs := crs gdf |}
  = Ok {| df_nrows := nrows gdf;
          df_columns := [("FACILITY_NAME", names); ("COUNTY", counties);
                         ("LATITUDE", lats); ("LONGITUDE", lons);
                         ("Distance_to_Water_m", map VNum ds);
                         ("Risk_Category", labels ds)] |}.
Proof.
  intros Hcrs Hn Hc Hlat Hlon.
  unfold report_frame, to_crs. cbn [crs columns geometry]. rewrite Hcrs.
  cbn [bind columns]. unfold REPORT_COLUMNS. cbn [select].
  rewrite !get_column_assign_same.
  repeat (rewrite get_column_assign_other by discriminate).
  rewrite get_column_assign_same, Hn, Hc, Hlat, Hlon. cbn [bind].
  unfold nrows. cbn [geometry]. now rewrite length_map.
Qed.

Lemma points_numbers (xs ys : list f64) :
  points (map VNum xs) (map VNum ys)
  = Ok (map (fun xy => Point (fst xy) (snd xy)) (combine xs ys)).
Proof.
  revert ys. induction xs as [| x xs IH]; intros [| y ys]; simpl; try reflexivity.
  now rewrite IH.
Qed.

Lemma min_dist_projected (gdf_water : GeoDataFrame) (source : CRS) (lon lat : f64) :
  min_dist {| columns := columns gdf_water;
              geometry := map (transform source TARGET_CRS) (geometry gdf_water);
              crs := Some TARGET_CRS |}
           (transform (EPSG 4326) TARGET_CRS (Point lon lat))
  = projected_distance source gdf_water lon lat.
Proof.
  unfold min_dist, GeoSeries_distance, projected_distance. cbn [geometry].
  now rewrite map_map.
Qed.



Lemma markers_map {A : Type} (row : A -> record) (marker : A -> CircleMarker)
  (l : list A) :
  (forall x, In x l -> marker_of_row (row x) = Ok (marker x)) ->
  markers (map row l) = Ok (map marker l).
Proof.
  induction l as [| x l IH]; intros H; simpl; [reflexivity |].
  rewrite (H x) by now left. cbn [bind].
  rewrite IH by (intros y Hy; apply H; now right). reflexivity.
Qed.

Lemma markers_raise {A : Type} (row : A -> record) (l : list A) :
  (forall x, In x l ->
     (exists m, marker_of_row (row x) = Ok m)
     \/ (exists msg, marker_of_row (row x) = Raise (ValueError msg))) ->
  (exists x msg, In x l /\ marker_of_row (row x) = Raise (ValueError msg)) ->
  exists msg, markers (map row l) = Raise (ValueError msg).
Proof.
  induction l as [| x l IH]; intros Hall (y & msg & Hy & Hraise); [destruct Hy |].
  simpl. destruct (Hall x (or_introl eq_refl)) as [[m Hm] | [msg' Hm]]; rewrite Hm;
    cbn [bind]; [| now exists msg'].
  destruct Hy as [<- | Hy]; [congruence |].
  destruct IH as [msg' Hmsg].
  - intros z Hz. apply Hall. now right.
  - now exists y, msg.
  - rewrite Hmsg. now exists msg'.
Qed.

Lemma cell_at_numbers i (l : list f64) : cell_at i (map VNum l) = VNum (nth i l NaN).
Proof. unfold cell_at, NA. apply (map_nth VNum). Qed.

Lemma marker_of_engine_row (names counties : list value) (lats lons ds : list f64) i :
  (i < List.length ds)%nat ->
  marker_of_row
    (row_at i [("FACILITY_NAME", names); ("COUNTY", counties);
               ("LATITUDE", map VNum lats); ("LONGITUDE", map VNum lons);
               ("Distance_to_Water_m", map VNum ds);
               ("Risk_Category", labels ds)])
  = (y <- validate_coordinate (VNum (nth i lats NaN)) ;;
     x <- validate_coordinate (VNum (nth i lons NaN)) ;;
     Ok (facility_marker y x (cell_at i names) (cell_at i counties) (nth i ds NaN))).
Proof.
  intros Hi.
  assert (Hrisk : cell_at i (labels ds) = VStr (categorize_risk (nth i ds NaN))).
  { unfold cell_at, labels.
    rewrite (nth_indep _ NA (VStr (categorize_risk NaN))) by now rewrite length_map.
    apply (map_nth (fun d => VStr (categorize_risk d))). }
  unfold marker_of_row, row_at, row_get, field.
  cbn [map fst snd find String.eqb Ascii.eqb Bool.eqb option_map bind].
  rewrite Hrisk, !cell_at_numbers. reflexivity.
Qed.

Lemma validate_number (x : f64) :
  is_nan x = false -> validate_coordinate (VNum x) = Ok x.
Proof. intros H. unfold validate_coordinate. cbn. now rewrite H. Qed.

Lemma validate_nan (x : f64) :
  is_nan x = true -> exists msg, validate_coordinate (VNum x) = Raise (ValueError msg).
Proof. intros H. unfold validate_coordinate. cbn. rewrite H. now eexists. Qed.

Lemma markers_of_engine (gdf : GeoDataFrame) (c : CRS)
  (names counties : list value) (lats lons ds : list f64) :
  crs gdf = Some c ->
  get_column "FACILITY_NAME" (columns gdf) = Ok names ->
  get_column "COUNTY" (columns gdf) = Ok counties ->
  get_column "LATITUDE" (columns gdf) = Ok (map VNum lats) ->
  get_column "LONGITUDE" (columns gdf) = Ok (map VNum lons) ->
  List.length ds = nrows gdf ->
  List.length lats = nrows gdf ->
  List.length lons = nrows gdf ->
  ((forall x, In x lats \/ In x lons -> is_nan x = false) ->
   generate_reports_map
     {| columns := assign "Risk_Category" (labels ds)
                     (assign "Distance_to_Water_m" (map VNum ds) (columns gdf));
        geometry := geometry gdf;
        crs := crs gdf |}
   = Ok (map (fun i => facility_marker (nth i lats NaN) (nth i lons NaN)
                         (cell_at i names) (cell_at i counties) (nth i ds NaN))
             (seq 0 (nrows gdf))))
  /\ ((exists x, (In x lats \/ In x lons) /\ is_nan x = true) ->
      exists msg,
        generate_reports_map
          {| columns := assign "Risk_Category" (labels ds)
                          (assign "Distance_to_Water_m" (map VNum ds) (columns gdf));
             geometry := geometry gdf;
             crs := crs gdf |}
        = Raise (ValueError msg)).
Proof.
  intros Hcrs Hn Hc Hlat Hlon Hds Hlats Hlons.
  unfold generate_reports_map.
  rewrite (report_frame_of_engine gdf c ds names counties _ _ Hcrs Hn Hc Hlat Hlon).
  cbn [bind]. unfold df_iterrows. cbn [df_nrows df_columns].
  assert (Hrow : forall i, In i (seq 0 (nrows gdf)) -> (i < nrows gdf)%nat)
    by (intros i Hi; apply in_seq in Hi; lia).
  split.
  - intros Hvalid. apply markers_map. intros i Hi. apply Hrow in Hi.
    rewrite marker_of_engine_row by lia.
    rewrite !validate_number; [reflexivity | |];
      apply Hvalid; [right | left]; apply nth_In; lia.
  - intros (x & Hx & Hnan). apply markers_raise.
    + intros i Hi. apply Hrow in Hi. rewrite marker_of_engine_row by lia.
      destruct (is_nan (nth i lats NaN)) eqn:Ey.
      * right. destruct (validate_nan _ Ey) as [msg ->]. now exists msg.
      * rewrite (validate_number _ Ey). cbn [bind].
        destruct (is_nan (nth i lons NaN)) eqn:Ex.
        -- right. destruct (validate_nan _ Ex) as [msg ->]. now exists msg.
        -- left. rewrite (validate_number _ Ex). now eexists.
    + assert (Hj : exists j, (j < nrows gdf)%nat
                             /\ (nth j lats NaN = x \/ nth j lons NaN = x)).
      { destruct Hx as [Hx | Hx]; apply (In_nth _ _ NaN) in Hx;
          destruct Hx as (j & Hj & Hnth); exists j; split; auto; lia. }
      destruct Hj as (j & Hj & Hnth).
      assert (Hin : In j (seq 0 (nrows gdf))) by (apply in_seq; lia).
      destruct (is_nan (nth j lats NaN)) eqn:Ey.
      * destruct (validate_nan _ Ey) as [msg Hmsg].
        exists j, msg. split; [exact Hin |]. cbv beta.
        rewrite marker_of_engine_row by lia. now rewrite Hmsg.
      * assert (Ex : is_nan (nth j lons NaN) = true).
        { destruct Hnth as [H | H]; rewrite H in *; congruence. }
        destruct (validate_nan _ Ex) as [msg Hmsg].
        exists j, msg. split; [exact Hin |]. cbv beta.
        rewrite marker_of_engine_row by lia.
        now rewrite (validate_number _ Ey), Hmsg.
Qed.

(** X12: the markers of the map.  For a facility frame with a reference
    system, the four named columns and numeric latitudes and longitudes,
    one per row: when none of these is not-a-number, the map gets one
    marker per facility in frame order, placed at the facility's latitude
    and longitude, coloured by the band of the facility's own recorded
    distance, with a popup naming the facility, its county, that distance
    and that band; when one of them is not-a-number, the marker's
    constructor raises a value error and no list of markers is made. *)
Theorem map_markers_follow_the_report
  (gdf_facilities_proj gdf_water_proj : GeoDataFrame) (c : CRS)
  (names counties : list value) (lats lons : list f64) :
  crs gdf_facilities_proj = Some c ->
  get_column "FACILITY_NAME" (columns gdf_facilities_proj) = Ok names ->
  get_column "COUNTY" (columns gdf_facilities_proj) = Ok counties ->
  get_column "LATITUDE" (columns gdf_facilities_proj) = Ok (map VNum lats) ->
  get_column "LONGITUDE" (columns gdf_facilities_proj) = Ok (map VNum lons) ->
  List.length lats = nrows gdf_facilities_proj ->
  List.length lons = nrows gdf_facilities_proj ->
  exists out ds,
    calculate_distance_and_categorize_risk gdf_facilities_proj gdf_water_proj = Ok out
    /\ ds = map (min_dist gdf_water_proj) (geometry gdf_facilities_proj)
    /\ ((forall x, In x lats \/ In x lons -> is_nan x = false) ->
        generate_reports_map out
        = Ok (map (fun i => facility_marker (nth i lats NaN) (nth i lons NaN)
                              (cell_at i names) (cell_at i counties) (nth i ds NaN))
                  (seq 0 (nrows gdf_facilities_proj))))
    /\ ((exists x, (In x lats \/ In x lons) /\ is_nan x = true) ->
        exists msg, generate_reports_map out = Raise (ValueError msg)).
Proof.
  intros Hcrs Hn Hc Hlat Hlon Hlats Hlons.
  eexists. eexists. split; [apply calculate_ok |]. split; [reflexivity |].
  apply (markers_of_engine gdf_facilities_proj c names counties lats lons);
    try assumption.
  unfold nrows. apply length_map.
Qed.

(** X11: the whole run.  For a facility table with the four named
    columns, numeric coordinates and one entry per row, and a water layer
    that carries a reference system, the main block writes the report:
    one line per facility in table order, with the facility's name,
    county, latitude and longitude as they were read, the least distance
    from the facility's point, taken at (longitude, latitude) and
    reprojected to the target system, to the reprojected water features,
    and the band of that distance.  When no latitude and no longitude is
    not-a-number it then saves the map, one marker per line of the
    report, and ends; when one is, it raises the value error of the
    marker's constructor after the report is written, and saves no
    map. *)
Theorem main_writes_the_report (env : inputs) (df_facilities : DataFrame)
  (gdf_water : GeoDataFrame) (source : CRS)
  (names counties : list value) (lats lons : list f64) :
  FACILITY_FILE env = Content df_facilities ->
  WATER_FILE env = Content gdf_water ->
  crs gdf_water = Some source ->
  get_column "FACILITY_NAME" (df_columns df_facilities) = Ok names ->
  get_column "COUNTY" (df_columns df_facilities) = Ok counties ->
  get_column "LATITUDE" (df_columns df_facilities) = Ok (map VNum lats) ->
  get_column "LONGITUDE" (df_columns df_facilities) = Ok (map VNum lons) ->
  List.length lats = df_nrows df_facilities ->
  List.length lons = df_nrows df_facilities ->
  let facilities :=
    combine (seq 0 (df_nrows df_facilities)) (combine lons lats) in
  let dist := fun row : nat * (f64 * f64) =>
    projected_distance source gdf_water (fst (snd row)) (snd (snd row)) in
  let report :=
    {| csv_header := REPORT_COLUMNS;
       csv_rows :=
         map (fun row =>
                [cell_at (fst row) names; cell_at (fst row) counties;
                 VNum (snd (snd row)); VNum (fst (snd row));
                 VNum (dist row); VStr (categorize_risk (dist row))])
             facilities |} in
  let ms :=
    map (fun row =>
           facility_marker (snd (snd row)) (fst (snd row))
             (cell_at (fst row) names) (cell_at (fst row) counties) (dist row))
        facilities in
  ((forall x, In x lats \/ In x lons -> is_nan x = false) ->
   main env = ({| report_file := Some report; map_file := Some ms |}, Ok tt))
  /\ ((exists x, (In x lats \/ In x lons) /\ is_nan x = true) ->
      exists msg,
        main env
        = ({| report_file := Some report; map_file := None |}, Raise (ValueError msg))).
Proof.
  intros Hf Hw Hsrc Hn Hc Hlat Hlon Hlenlat Hlenlon facilities dist report ms.
  assert (Hlen : List.length (combine lons lats) = df_nrows df_facilities).
  { rewrite length_combine, Hlenlat, Hlenlon. apply Nat.min_id. }
  pose (gdfp := {| columns := df_columns df_facilities;
                   geometry := map (transform (EPSG 4326) TARGET_CRS)
                                 (map (fun xy => Point (fst xy) (snd xy))
                                      (combine lons lats));
                   crs := Some TARGET_CRS |}).
  pose (wp := {| columns := columns gdf_water;
                 geometry := map (transform source TARGET_CRS) (geometry gdf_water);
                 crs := Some TARGET_CRS |}).
  pose (ds := map (min_dist wp) (geometry gdfp)).
  assert (Hmain : main env
                  = generate_reports_all
                      {| columns := assign "Risk_Category" (labels ds)
                                      (assign "Distance_to_Water_m" (map VNum ds)
                                         (columns gdfp));
                         geometry := geometry gdfp;
                         crs := crs gdfp |}).
  { unfold main. rewrite load_by_layers, Hf, Hw.
    unfold facility_layer. rewrite Hlon, Hlat. cbn [bind].
    rewrite points_numbers. cbn [bind].
    unfold new_GeoDataFrame. rewrite length_map, Hlen, Nat.eqb_refl. cbn [bind].
    unfold to_crs. cbn [crs columns geometry]. rewrite Hsrc. cbn [bind].
    fold gdfp wp. now rewrite calculate_ok. }
  rewrite !Hmain. clear Hmain.
  assert (Hrows : nrows gdfp = List.length (combine lons lats)).
  { unfold nrows, gdfp. cbn [geometry]. now rewrite !length_map. }
  assert (Hnth : forall i lon lat,
            nth_error (combine lons lats) i = Some (lon, lat) ->
            nth i lons NaN = lon /\ nth i lats NaN = lat
            /\ nth i ds NaN = projected_distance source gdf_water lon lat).
  { intros i lon lat Hi.
    destruct (nth_error_combine _ _ _ _ _ Hi) as [Hilon Hilat].
    split; [now apply nth_error_nth |]. split; [now apply nth_error_nth |].
    unfold ds, gdfp. cbn [geometry]. rewrite !map_map.
    erewrite nth_error_nth by (apply map_nth_error; exact Hi).
    cbn [fst snd]. unfold wp. apply min_dist_projected. }
  assert (Hcsv : generate_reports
                   {| columns := assign "Risk_Category" (labels ds)
                                   (assign "Distance_to_Water_m" (map VNum ds)
                                      (columns gdfp));
                      geometry := geometry gdfp;
                      crs := crs gdfp |}
                 = Ok report).
  { rewrite generate_reports_frame.
    rewrite (report_frame_of_engine gdfp TARGET_CRS ds names counties
               (map VNum lats) (map VNum lons) eq_refl Hn Hc Hlat Hlon).
    cbn [bind]. unfold report, to_csv. cbn [df_columns df_nrows map fst].
    do 2 f_equal. unfold facilities. rewrite Hrows, <- Hlen.
    rewrite <- (combine_fst (seq 0 (List.length (combine lons lats)))
                            (combine lons lats))
      at 1 by apply length_seq.
    rewrite map_map.
    apply (map_indexed_ext
             (fun row => map snd (row_at (fst row) _))
             (fun row =>
                [cell_at (fst row) names; cell_at (fst row) counties;
                 VNum (snd (snd row)); VNum (fst (snd row));
                 VNum (dist row); VStr (categorize_risk (dist row))])).
    intros i [lon lat] Hi. cbn [fst snd Nat.add row_at map]. unfold dist. cbn [fst snd].
    destruct (Hnth i lon lat Hi) as (Hilon & Hilat & Hids).
    assert (Hi' : (i < List.length ds)%nat).
    { unfold ds. rewrite length_map. fold (nrows gdfp). rewrite Hrows.
      apply nth_error_Some. now rewrite Hi. }
    rewrite !cell_at_numbers, Hilon, Hilat, Hids.
    unfold cell_at, labels.
    rewrite (nth_indep (map (fun d => VStr (categorize_risk d)) ds) NA
                       (VStr (categorize_risk NaN)))
      by now rewrite length_map.
    rewrite (map_nth (fun d => VStr (categorize_risk d))). now rewrite Hids. }
  assert (Hms : map (fun i => facility_marker (nth i lats NaN) (nth i lons NaN)
                                (cell_at i names) (cell_at i counties) (nth i ds NaN))
                    (seq 0 (nrows gdfp))
                = ms).
  { unfold ms, facilities. rewrite Hrows, <- Hlen.
    rewrite <- (combine_fst (seq 0 (List.length (combine lons lats)))
                            (combine lons lats))
      at 1 by apply length_seq.
    rewrite map_map.
    apply (map_indexed_ext
             (fun row => facility_marker (nth (fst row) lats NaN) (nth (fst row) lons NaN)
                           (cell_at (fst row) names) (cell_at (fst row) counties)
                           (nth (fst row) ds NaN))
             (fun row => facility_marker (snd (snd row)) (fst (snd row))
                           (cell_at (fst row) names) (cell_at (fst row) counties)
                           (dist row))).
    intros i [lon lat] Hi. cbn [fst snd Nat.add]. unfold dist. cbn [fst snd].
    destruct (Hnth i lon lat Hi) as (-> & -> & ->). reflexivity. }
  destruct (markers_of_engine gdfp TARGET_CRS names counties lats lons ds
              eq_refl Hn Hc Hlat Hlon)
    as [Hok Hbad].
  - unfold ds. rewrite length_map. reflexivity.
  - now rewrite Hrows, Hlen.
  - now rewrite Hrows, Hlen.
  - unfold generate_reports_all. rewrite Hcsv.
    match goal with
    | |- context [generate_reports_map ?x] =>
        destruct (generate_reports_map x) as [made | e]
    end; split.
    + intros Hvalid. specialize (Hok Hvalid). injection Hok as ->. rewrite Hms. reflexivity.
    + intros Hinvalid. destruct (Hbad Hinvalid) as [msg Hmsg]. discriminate Hmsg.
    + intros Hvalid. specialize (Hok Hvalid). discriminate Hok.
    + intros Hinvalid. destruct (Hbad Hinvalid) as [msg Hmsg].
      injection Hmsg as ->. exists msg. reflexivity.
Qed.

End FurtherReports.

(** ** The further properties on the line geometry *)

#[local] Existing Instance Line.interpreter.


Example line_rerun_on_classified_frame :
  (gdf_classified <-
     calculate_distance_and_categorize_risk Line.facilities Line.water ;;
   again <-
     calculate_distance_and_categorize_risk gdf_classified LineData.water_reversed ;;
   Ok (map fst (columns again)))
  = Ok ["FACILITY_NAME"; "COUNTY"; "LATITUDE"; "LONGITUDE"; "PERMIT";
        "Distance_to_Water_m"; "Risk_Category"].
Proof. reflexivity. Qed.

Lemma more_water_is_nearer_witness :
  (forall w, In w (geometry Line.shore) -> In w (geometry Line.water))
  /\ is_nan (min_dist Line.shore (Some 45)) = false
  /\ fle (min_dist Line.water (Some 45)) (min_dist Line.shore (Some 45)) = true.
Proof.
  assert (Hsub : forall w, In w (geometry Line.shore) -> In w (geometry Line.water)).
  { intros w [<- | []]. now left. }
  split; [exact Hsub |]. split; [reflexivity |].
  apply (more_water_is_nearer Line.shore Line.water (Some 45) Hsub eq_refl).
Defined.

Lemma feature_order_is_irrelevant_witness :
  (forall w, In w (geometry Line.water) <-> In w (geometry LineData.water_reversed))
  /\ categorize_risk (min_dist Line.water (Some 300))
     = categorize_risk (min_dist LineData.water_reversed (Some 300)).
Proof.
  assert (Hsame : forall w, In w (geometry Line.water)
                            <-> In w (geometry LineData.water_reversed)).
  { intros w. simpl. tauto. }
  split; [exact Hsame |].
  apply (feature_order_is_irrelevant Line.water LineData.water_reversed (Some 300) Hsame).
Defined.

Lemma engine_keeps_frame_well_formed_witness :
  well_formed Line.facilities
  /\ exists out,
       calculate_distance_and_categorize_risk Line.facilities Line.water = Ok out
       /\ well_formed out.
Proof.
  assert (Hwf : well_formed Line.facilities) by (repeat constructor).
  split; [exact Hwf |].
  destruct (engine_keeps_frame_well_formed Line.facilities Line.water Hwf)
    as (out & Hout & Hwf' & _).
  exists out. now split.
Defined.

Lemma report_lines_are_consistent_witness :
  exists out report,
    calculate_distance_and_categorize_risk Line.facilities Line.water = Ok out
    /\ generate_reports out = Ok report
    /\ Forall (fun line => exists d,
                 nth 4 line NA = VNum d /\ nth 5 line NA = VStr (categorize_risk d))
              (csv_rows report).
Proof.
  eexists. eexists. split; [reflexivity |]. split; [reflexivity |].
  eapply (report_lines_are_consistent Line.facilities Line.water); reflexivity.
Defined.





Example line_markers :
  (gdf_classified <-
     calculate_distance_and_categorize_risk Line.facilities Line.water ;;
   ms <- generate_reports_map gdf_classified ;;
   Ok (map color ms, map (fun m => popup_distance (popup m)) ms, map location ms))
  = Ok (["red"; "orange"; "blue"], [Fin 45; Fin 300; Fin 1000],
        [(Fin 37, Fin (-122)); (Fin 38, Fin (-123)); (Fin (77 # 2), Fin (-245 # 2))]).
Proof. reflexivity. Qed.

Example line_untagged_water_raises :
  main Line.untagged_inputs
  = (nothing_written,
     Raise (ValueError "Cannot transform naive geometries.  Please set a crs on the object first.")).
Proof. reflexivity. Qed.

Example line_latitude_not_a_number :
  main LineData.inputs_without_latitude
  = ({| report_file :=
          Some {| csv_header := REPORT_COLUMNS;
                  csv_rows := [[VStr "Delta"; VStr "Solano"; VNum NaN;
                                VNum (Fin (-122)); VNum (Fin 122);
                                VStr "Medium Risk (101-500m)"]] |};
        map_file := None |},
     Raise (ValueError "Location values cannot contain NaNs.")).
Proof. reflexivity. Qed.

Lemma pipeline_distances_never_negative_witness :
  (forall w f, In w (geometry Line.water) -> In f (geometry Line.facilities) ->
               flt (@distance Line.geometry_lib w f) (Fin 0) = false)
  /\ exists out ds,
       calculate_distance_and_categorize_risk Line.facilities Line.water = Ok out
       /\ get_column "Distance_to_Water_m" (columns out) = Ok (map VNum ds)
       /\ List.length ds = 3%nat.
Proof.
  assert (Hlib : forall w f, In w (geometry Line.water) ->
                             In f (geometry Line.facilities) ->
                             flt (@distance Line.geometry_lib w f) (Fin 0) = false).
  { intros w f [<- | [<- | []]] [<- | [<- | [<- | []]]]; reflexivity. }
  split; [exact Hlib |].
  destruct (pipeline_distances_never_negative Line.facilities Line.water Hlib)
    as (out & ds & Hout & Hd & _ & Hall).
  exists out, ds. split; [exact Hout |]. split; [exact Hd |].
  apply Forall2_length in Hall. now rewrite <- Hall.
Defined.

(** C7, as the specification has it, fails on a water layer that is not
    empty but whose only feature has no geometry: every recorded distance
    is not-a-number, which is not at least 0. *)
Lemma nonempty_water_distance_not_a_number :
  geometry LineData.water_without_geometry <> []
  /\ distances_loop LineData.water_without_geometry (geometry Line.facilities)
     = [NaN; NaN; NaN]
  /\ fle (Fin 0) NaN = false
  /\ ~ @nonempty_water_gives_nonnegative Line.geometry_lib.
Proof.
  split; [discriminate |]. split; [reflexivity |]. split; [reflexivity |].
  intros H.
  specialize (H Line.facilities LineData.water_without_geometry).
  assert (Hne : geometry LineData.water_without_geometry <> []) by discriminate.
  apply H in Hne. inversion Hne as [| d ds Hd _]. discriminate Hd.
Qed.



Lemma missing_coordinate_column_raises_witness :
  FACILITY_FILE LineData.inputs_without_longitude
  = Content LineData.table_without_longitude
  /\ ~ In "LONGITUDE" (map fst (df_columns LineData.table_without_longitude))
  /\ exists k,
       main LineData.inputs_without_longitude = (nothing_written, Raise (KeyError k)).
Proof.
  assert (Hout : ~ In "LONGITUDE" (map fst (df_columns LineData.table_without_longitude))).
  { simpl. intros H. repeat (destruct H as [H | H]; [discriminate H |]). exact H. }
  split; [reflexivity |]. split; [exact Hout |].
  destruct (missing_coordinate_column_raises LineData.inputs_without_longitude
              LineData.table_without_longitude eq_refl)
    as (k & _ & _ & _ & Hmain).
  - exists "LONGITUDE". split; [now left | exact Hout].
  - now exists k.
Defined.

Lemma main_writes_the_report_witness :
  FACILITY_FILE LineData.tagged_inputs = Content Line.facility_table
  /\ WATER_FILE LineData.tagged_inputs = Content Line.shore
  /\ crs Line.shore = Some TARGET_CRS
  /\ (forall x, In x [Fin 38] \/ In x [Fin (-122)] -> is_nan x = false)
  /\ main LineData.tagged_inputs
     = ({| report_file :=
             Some {| csv_header := REPORT_COLUMNS;
                     csv_rows := [[VStr "Delta"; VStr "Solano"; VNum (Fin 38);
                                   VNum (Fin (-122)); VNum (Fin 122);
                                   VStr "Medium Risk (101-500m)"]] |};
           map_file :=
             Some [facility_marker (Fin 38) (Fin (-122)) (VStr "Delta") (VStr "Solano")
                                   (Fin 122)] |},
        Ok tt).
Proof.
  assert (Hvalid : forall x, In x [Fin 38] \/ In x [Fin (-122)] -> is_nan x = false).
  { intros x [[<- | []] | [<- | []]]; reflexivity. }
  repeat (split; [reflexivity |]). split; [exact Hvalid |].
  destruct (main_writes_the_report LineData.tagged_inputs Line.facility_table Line.shore
              TARGET_CRS [VStr "Delta"] [VStr "Solano"] [Fin 38] [Fin (-122)]
              eq_refl eq_refl eq_refl eq_refl eq_refl eq_refl eq_refl eq_refl eq_refl)
    as [Hok _].
  exact (Hok Hvalid).
Defined.

Lemma map_markers_follow_the_report_witness :
  crs Line.facilities = Some TARGET_CRS
  /\ (forall x, In x [Fin 37; Fin 38; Fin (77 # 2)]
                \/ In x [Fin (-122); Fin (-123); Fin (-245 # 2)] -> is_nan x = false)
  /\ exists out ms,
       calculate_distance_and_categorize_risk Line.facilities Line.water = Ok out
       /\ generate_reports_map out = Ok ms
       /\ List.length ms = 3%nat.
Proof.
  assert (Hvalid : forall x, In x [Fin 37; Fin 38; Fin (77 # 2)]
                             \/ In x [Fin (-122); Fin (-123); Fin (-245 # 2)] ->
                             is_nan x = false).
  { intros x [H | H]; simpl in H;
      repeat (destruct H as [<- | H]; [reflexivity |]); destruct H. }
  split; [reflexivity |]. split; [exact Hvalid |].
  destruct (map_markers_follow_the_report Line.facilities Line.water TARGET_CRS
              [VStr "Alpha"; VStr "Bravo"; VStr "Charlie"]
              [VStr "Alameda"; VStr "Marin"; VStr "Napa"]
              [Fin 37; Fin 38; Fin (77 # 2)]
              [Fin (-122); Fin (-123); Fin (-245 # 2)]
              eq_refl eq_refl eq_refl eq_refl eq_refl eq_refl eq_refl)
    as (out & ds & Hout & _ & Hok & _).
  exists out. eexists. split; [exact Hout |]. split; [exact (Hok Hvalid) |].
  reflexivity.
Defined.
